(** * Mavkus: routing, critique learning and memory of the conversation engine

    A shallow embedding of [mavkus.py] (the [GeminiSpecialist] adapter and the
    [MavkusAI] orchestrator) and of the instance cache and the save-keys
    endpoint of [server.py], followed by the properties the specification
    states about them.

    Conventions of the embedding.
    - A Python [str] is a [string]: the UTF-8 bytes of the text.  Substring
      tests and splitting on a separator agree on bytes and on code points
      for well-formed UTF-8; slices that count characters count leading
      bytes ([take_chars]).
    - Python [int] is [Z].  Python [float] and JSON numbers are exact
      rationals [Q]: rounding of binary floating point is not modelled, the
      values [NaN] and [Infinity] have no counterpart, and neither has the
      [OverflowError] of arithmetic between a [float] and an [int] beyond
      the largest [float].  Statements that a turn returns therefore assume
      numbers within that range ([in_float_range]), and statements about
      the value of the running mean hold in exact arithmetic.
    - A memory file is the dictionary a save wrote, or unreadable:
      [json.dump] followed by [json.load] is taken to give the data back.
    - [str.lower] and [json.loads] are library functions; the engine is
      parametric in them (Section variables [lower] and [json_loads]).
      [ascii_lower] and [json_loads_lite] are concrete instances, correct on
      ASCII text and on the escape-free fragment of JSON.
    - Mutable objects are explicit state; a method is a computation in a
      state-and-exception monad whose state survives a raised exception.
    - What the outside world answers during a turn (both model calls, the
      critic, the disk, the clock) is an input of the turn ([turn_env]). *)

From Stdlib Require Import ZArith QArith Qabs List String Ascii Bool Lia.
From stdpp Require Import base option list strings gmap.

Local Open Scope string_scope.
Local Open Scope list_scope.

(** ** Python strings *)

Module Py.

(** [sub in s]: [sub] occurs in [s] as a contiguous run. *)
Fixpoint str_in (sub s : string) : bool :=
  String.prefix sub s ||
  match s with
  | EmptyString => false
  | String _ s' => str_in sub s'
  end.

(** The declarative reading of [sub in s]. *)
Definition occurs (sub s : string) : Prop :=
  exists pre post : string, s = String.append pre (String.append sub post).

(** [l[-n:]] for a positive [n]: the last [n] elements, all of [l] when it
    is shorter. *)
Definition last_n {A : Type} (n : nat) (l : list A) : list A :=
  skipn (length l - n) l.

(** A byte [10xxxxxx] continues a UTF-8 character. *)
Definition is_continuation (c : ascii) : bool :=
  let n := nat_of_ascii c in (128 <=? n)%nat && (n <? 192)%nat.

(** [s[:n]]: the first [n] characters of [s]. *)
Fixpoint take_chars (n : nat) (s : string) : string :=
  match s with
  | EmptyString => EmptyString
  | String c s' =>
      if is_continuation c then String c (take_chars n s')
      else match n with
           | O => EmptyString
           | S k => String c (take_chars k s')
           end
  end.

(** [s.split(sep)] for a non-empty [sep]: scanning left to right, [cur]
    holds the current piece reversed and [skip] the bytes of a matched
    separator still to be consumed. *)
Fixpoint split_go (sep s : string) (skip : nat) (cur : list ascii) : list string :=
  match s with
  | EmptyString => [string_of_list_ascii (rev cur)]
  | String c s' =>
      match skip with
      | S k => split_go sep s' k cur
      | O =>
          if String.prefix sep s
          then string_of_list_ascii (rev cur) :: split_go sep s' (String.length sep - 1) []
          else split_go sep s' 0 (c :: cur)
      end
  end.

Definition split (sep s : string) : list string := split_go sep s 0 [].

(** The characters for which [str.isspace] holds, as UTF-8 byte sequences:
    U+0009..U+000D, U+001C..U+0020, U+0085, U+00A0, U+1680, U+2000..U+200A,
    U+2028, U+2029, U+202F, U+205F, U+3000. *)
Definition b (n : nat) : ascii := ascii_of_nat n.

Definition whitespace : list (list ascii) :=
  map (fun n => [b n]) [9; 10; 11; 12; 13; 28; 29; 30; 31; 32]%nat ++
  [[b 194; b 133]; [b 194; b 160]; [b 225; b 154; b 128]] ++
  map (fun n => [b 226; b 128; b n])
      [128; 129; 130; 131; 132; 133; 134; 135; 136; 137; 138; 168; 169; 175]%nat ++
  [[b 226; b 129; b 159]; [b 227; b 128; b 128]].

Fixpoint is_prefix_list (p l : list ascii) : bool :=
  match p, l with
  | [], _ => true
  | x :: p', y :: l' => Ascii.eqb x y && is_prefix_list p' l'
  | _ :: _, [] => false
  end.

(** Drop one leading white-space character, if there is one. *)
Definition drop_space (ws : list (list ascii)) (l : list ascii) : option (list ascii) :=
  match List.find (fun w => is_prefix_list w l) ws with
  | Some w => Some (skipn (length w) l)
  | None => None
  end.

Fixpoint lstrip_go (fuel : nat) (ws : list (list ascii)) (l : list ascii) : list ascii :=
  match fuel with
  | O => l
  | S k => match drop_space ws l with
           | Some l' => lstrip_go k ws l'
           | None => l
           end
  end.

Definition lstrip_list (ws : list (list ascii)) (l : list ascii) : list ascii :=
  lstrip_go (length l) ws l.

(** [s.strip()]: white space removed at both ends. *)
Definition strip (s : string) : string :=
  let l := lstrip_list whitespace (list_ascii_of_string s) in
  let r := lstrip_list (map (@rev ascii) whitespace) (rev l) in
  string_of_list_ascii (rev r).

(** [str.lower] on ASCII text: [A..Z] to [a..z], every other byte kept. *)
Definition lower_char (c : ascii) : ascii :=
  let n := nat_of_ascii c in
  if (65 <=? n)%nat && (n <=? 90)%nat then ascii_of_nat (n + 32) else c.

Fixpoint ascii_lower (s : string) : string :=
  match s with
  | EmptyString => EmptyString
  | String c s' => String (lower_char c) (ascii_lower s')
  end.

End Py.

(** [o] is an object, not [None]. *)
Definition present {A : Type} (o : option A) : bool :=
  match o with
  | Some _ => true
  | None => false
  end.

(** ** JSON values, as [json.loads] returns them *)

(** A JSON object is the list of its items in insertion order (a Python
    [dict]); [true] and [false] are Python [bool]s, which are numbers. *)
#[local] Set Warnings "-register-all".
Inductive json : Type :=
| JNull
| JBool (v : bool)
| JNum (q : Q)
| JStr (s : string)
| JArr (items : list json)
| JObj (items : list (string * json)).

Module Json.

(** [d.get(key)] on the items of a [dict]. *)
Fixpoint get (key : string) (items : list (string * json)) : option json :=
  match items with
  | [] => None
  | (k, v) :: rest => if String.eqb k key then Some v else get key rest
  end.

(** The value of an operand of [>=], [<=], [+]: numbers and booleans are
    numeric, every other value makes the operation raise [TypeError]. *)
Definition as_number (v : json) : option Q :=
  match v with
  | JNum q => Some q
  | JBool true => Some 1%Q
  | JBool false => Some 0%Q
  | _ => None
  end.

(** *** A decoder for the escape-free fragment of JSON

    Literals, decimal numbers without exponent, strings without backslash,
    arrays and objects.  Outside the fragment it answers [None]. *)

(** The double quote, character 34. *)
Abbreviation dquote := (Ascii false true false false false true false false) (only parsing).

(** [s] between double quotes. *)
Definition quoted (s : string) : string :=
  String dquote (String.append s (String dquote EmptyString)).

Definition is_ws (c : ascii) : bool :=
  match nat_of_ascii c with
  | 9%nat | 10%nat | 13%nat | 32%nat => true
  | _ => false
  end.

Fixpoint skip_ws (l : list ascii) : list ascii :=
  match l with
  | c :: l' => if is_ws c then skip_ws l' else l
  | [] => []
  end.

Definition digit (c : ascii) : option Z :=
  let n := nat_of_ascii c in
  if (48 <=? n)%nat && (n <=? 57)%nat then Some (Z.of_nat (n - 48)) else None.

(** Reads a run of digits: its value, its length, and the rest. *)
Fixpoint digits (acc : Z) (len : nat) (l : list ascii) : Z * nat * list ascii :=
  match l with
  | c :: l' =>
      match digit c with
      | Some d => digits (10 * acc + d)%Z (S len) l'
      | None => (acc, len, l)
      end
  | [] => (acc, len, [])
  end.

(** A number: an optional sign, digits without a superfluous leading zero,
    and an optional fraction of at least one digit. *)
Definition number (l : list ascii) : option (json * list ascii) :=
  let '(neg, l1) :=
    match l with
    | "-"%char :: l' => (true, l')
    | _ => (false, l)
    end in
  let leading_zero :=
    match l1 with
    | "0"%char :: c :: _ => present (digit c)
    | _ => false
    end in
  let '(ip, n, l2) := digits 0 0 l1 in
  match n with
  | O => None
  | S _ =>
      if leading_zero then None
      else
        let sign (num : Z) : Z := if neg : bool then (- num)%Z else num in
        match l2 with
        | "."%char :: l' =>
            let '(fp, k, l3) := digits 0 0 l' in
            match k with
            | O => None
            | S _ =>
                let den := (10 ^ Z.of_nat k)%Z in
                Some (JNum (Qred (Qmake (sign (ip * den + fp)%Z) (Z.to_pos den))), l3)
            end
        | _ => Some (JNum (Qmake (sign ip) 1), l2)
        end
  end.

(** Reads the body of a string up to its closing quote. *)
Fixpoint chars (acc : list ascii) (l : list ascii) : option (string * list ascii) :=
  match l with
  | [] => None
  | c :: l' =>
      if Ascii.eqb c dquote then Some (string_of_list_ascii (rev acc), l')
      else if Ascii.eqb c "\"%char || (nat_of_ascii c <? 32)%nat then None
      else chars (c :: acc) l'
  end.

Fixpoint value (fuel : nat) (l : list ascii) : option (json * list ascii) :=
  match fuel with
  | O => None
  | S k =>
      match skip_ws l with
      | "n"%char :: "u"%char :: "l"%char :: "l"%char :: r => Some (JNull, r)
      | "t"%char :: "r"%char :: "u"%char :: "e"%char :: r => Some (JBool true, r)
      | "f"%char :: "a"%char :: "l"%char :: "s"%char :: "e"%char :: r => Some (JBool false, r)
      | dquote :: r =>
          match chars [] r with
          | Some (s, r') => Some (JStr s, r')
          | None => None
          end
      | "["%char :: r =>
          match skip_ws r with
          | "]"%char :: r' => Some (JArr [], r')
          | _ => match elements k r [] with
                 | Some (vs, r') => Some (JArr vs, r')
                 | None => None
                 end
          end
      | "{"%char :: r =>
          match skip_ws r with
          | "}"%char :: r' => Some (JObj [], r')
          | _ => match members k r [] with
                 | Some (kvs, r') => Some (JObj kvs, r')
                 | None => None
                 end
          end
      | r => number r
      end
  end
with elements (fuel : nat) (l : list ascii) (acc : list json) : option (list json * list ascii) :=
  match fuel with
  | O => None
  | S k =>
      match value k l with
      | Some (v, r) =>
          match skip_ws r with
          | ","%char :: r' => elements k r' (v :: acc)
          | "]"%char :: r' => Some (rev (v :: acc), r')
          | _ => None
          end
      | None => None
      end
  end
with members (fuel : nat) (l : list ascii) (acc : list (string * json))
  : option (list (string * json) * list ascii) :=
  match fuel with
  | O => None
  | S k =>
      match skip_ws l with
      | dquote :: r =>
          match chars [] r with
          | Some (key, r1) =>
              match skip_ws r1 with
              | ":"%char :: r2 =>
                  match value k r2 with
                  | Some (v, r3) =>
                      (* a repeated key keeps its first position and takes the last value *)
                      let acc' :=
                        if existsb (fun kv => String.eqb (fst kv) key) acc
                        then map (fun kv => if String.eqb (fst kv) key then (key, v) else kv) acc
                        else (key, v) :: acc in
                      match skip_ws r3 with
                      | ","%char :: r4 => members k r4 acc'
                      | "}"%char :: r4 => Some (rev acc', r4)
                      | _ => None
                      end
                  | None => None
                  end
              | _ => None
              end
          | None => None
          end
      | _ => None
      end
  end.

Definition json_loads_lite (s : string) : option json :=
  let l := list_ascii_of_string s in
  match value (S (length l)) l with
  | Some (v, r) => match skip_ws r with
                   | [] => Some v
                   | _ => None
                   end
  | None => None
  end.

End Json.

(** ** Exceptions and the state-and-exception monad *)

(** The Python exceptions the engine can meet; [RemoteError] stands for
    whatever a model client or the document store raises. *)
Inductive exn : Type :=
| AttributeError (msg : string)
| TypeError (msg : string)
| ZeroDivisionError (msg : string)
| IndexError (msg : string)
| JSONDecodeError (msg : string)
| ValueError (msg : string)
| OSError (msg : string)
| RemoteError (msg : string)
| HTTPException (status_code : string) (detail : string).

(** [str(e)] *)
Definition str_of_exn (e : exn) : string :=
  match e with
  | AttributeError m | TypeError m | ZeroDivisionError m | IndexError m
  | JSONDecodeError m | ValueError m | OSError m | RemoteError m => m
  | HTTPException code detail => String.append code (String.append ": " detail)
  end.

Module Run.

(** A method over a mutable object of type [St]: it ends with a value or
    with a raised exception, and in both cases leaves a state behind. *)
Definition M (St A : Type) : Type := St -> (exn + A) * St.

Definition ret {St A : Type} (a : A) : M St A := fun s => (inr a, s).

Definition bind {St A B : Type} (m : M St A) (k : A -> M St B) : M St B :=
  fun s =>
    match m s with
    | (inr a, s') => k a s'
    | (inl e, s') => (inl e, s')
    end.

Definition raise {St A : Type} (e : exn) : M St A := fun s => (inl e, s).

Definition get {St : Type} : M St St := fun s => (inr s, s).

Definition modify {St : Type} (f : St -> St) : M St unit := fun s => (inr tt, f s).

(** [try: m  except Exception as e: h e] *)
Definition try_except {St A : Type} (m : M St A) (h : exn -> M St A) : M St A :=
  fun s =>
    match m s with
    | (inl e, s') => h e s'
    | r => r
    end.

(** A result handed in from outside: returned, or raised. *)
Definition of_sum {St A : Type} (r : exn + A) : M St A :=
  match r with
  | inl e => raise e
  | inr a => ret a
  end.

(** Runs a method of a component held in a field of the state. *)
Definition zoom {St Sub A : Type} (proj : St -> Sub) (inj : Sub -> St -> St)
    (m : M Sub A) : M St A :=
  fun s => let '(r, sub') := m (proj s) in (r, inj sub' s).

(** [for x in l: body x] *)
Fixpoint for_each {St A : Type} (l : list A) (body : A -> M St unit) : M St unit :=
  match l with
  | [] => ret tt
  | x :: l' => bind (body x) (fun _ => for_each l' body)
  end.

End Run.

Declare Scope run_scope.
Delimit Scope run_scope with run.
Notation "x <- m ;; k" := (Run.bind m (fun x => k))
  (at level 100, m at next level, right associativity) : run_scope.
Notation "m ;; k" := (Run.bind m (fun _ => k))
  (at level 100, right associativity) : run_scope.

(** [o] is truthy: a non-empty string. *)
Definition truthy (o : option string) : bool :=
  match o with
  | Some s => negb (String.eqb s "")
  | None => false
  end.

(** [x in l] for a list of strings. *)
Definition mem (x : string) (l : list string) : bool := existsb (String.eqb x) l.

(** ** The specialist adapter: [GeminiSpecialist] *)

Module GeminiSpecialist.

(** [genai.GenerativeModel('gemini-pro')], configured with a key. *)
Record GenerativeModel : Type := { model_id : string; configured_key : string }.

Record t : Type := {
  name : string;
  specialty : string;
  consultations : Z;
  successes : Z;
  available : bool;
  model : option GenerativeModel
}.

(** The dictionary [consult] returns. *)
Record answer_t : Type := { answer : string; success : bool; ai_name : string }.

(** The dictionary [get_stats] returns; [success_rate] is the number the
    source then renders with one decimal and a percent sign. *)
Record stats_t : Type := {
  stat_name : string;
  stat_specialty : string;
  stat_consultations : Z;
  stat_successes : Z;
  success_rate : Q;
  stat_available : bool
}.

(** [__init__]: [sdk] is [GEMINI_AVAILABLE], [configure_ok] tells whether
    [genai.configure] and the model constructor return. *)
Definition init (sdk configure_ok : bool) (api_key : option string) : t :=
  let available_model :=
    if sdk && truthy api_key then
      if configure_ok
      then Some {| model_id := "gemini-pro"; configured_key := default "" api_key |}
      else None
    else None in
  {| name := "Gemini Pro";
     specialty := "Scienze (Fisica, Chimica, Biologia), Matematica, Ricerca";
     consultations := 0;
     successes := 0;
     available := present available_model;
     model := available_model |}.

Definition add_consultation (self : t) : t :=
  {| name := name self; specialty := specialty self;
     consultations := consultations self + 1; successes := successes self;
     available := available self; model := model self |}.

Definition add_success (self : t) : t :=
  {| name := name self; specialty := specialty self;
     consultations := consultations self; successes := successes self + 1;
     available := available self; model := model self |}.

Local Open Scope run_scope.

(** [consult]: [reply] is what [generate_content] does when it is called. *)
Definition consult (question context : string) (reply : exn + string)
  : Run.M t answer_t :=
  self <- Run.get ;;
  if negb (available self) || negb (present (model self)) then
    Run.ret {| answer := "❌ Gemini non disponibile"; success := false;
               ai_name := name self |}
  else
    Run.modify add_consultation ;;
    Run.try_except
      (text <- Run.of_sum reply ;;
       Run.modify add_success ;;
       Run.ret {| answer := text; ai_name := name self; success := true |})
      (fun e =>
         Run.ret {| answer := String.append "❌ Errore Gemini: "
                                (Py.take_chars 100 (str_of_exn e));
                    success := false; ai_name := name self |}).

Definition get_stats (self : t) : stats_t :=
  let rate :=
    if (consultations self >? 0)%Z
    then (inject_Z (successes self) / inject_Z (consultations self) * 100)%Q
    else 0%Q in
  {| stat_name := name self; stat_specialty := specialty self;
     stat_consultations := consultations self; stat_successes := successes self;
     success_rate := rate; stat_available := available self |}.

End GeminiSpecialist.

(** ** The data of the orchestrator *)

Inductive style_t : Type := Formal | Casual | Technical | Neutral.

Record QualityMetrics : Type := {
  avg_response_score : Q;
  improvement_trend : list Q;
  weak_areas : list string;
  strong_areas : list string
}.

Record UserProfile : Type := {
  style : style_t;
  topics_of_interest : list string;
  conversation_count : Z;
  preferred_response_length : string;
  language_level : string;
  quality_metrics : QualityMetrics
}.

(** An entry of [learned_patterns["gemini_consultations"]]. *)
Record consultation : Type := {
  timestamp : string;
  question : string;
  consultation_success : bool
}.

Record LearnedPatterns : Type := {
  successful_responses : list string;
  failed_responses : list string;
  improvement_strategies : list string;
  gemini_consultations : list consultation
}.

Record RoutingStats : Type := {
  total_questions : Z;
  routed_to_gemini : Z;
  handled_by_coordinator : Z;
  gemini_success_rate : Q
}.

(** Messages.  [SystemPrompt] is the text of [_get_system_prompt], kept as
    the values it interpolates. *)
Inductive message : Type :=
| SystemPrompt (profile : UserProfile) (specialty : string) (stats : RoutingStats)
| SystemMessage (content : string)
| HumanMessage (content : string)
| AIMessage (content : string).

Record ChatGroq : Type := {
  model_name : string;
  temperature : Q;
  api_key : string;
  max_tokens : Z
}.

Record MavkusAI : Type := {
  user_id : string;
  save_file : string;
  model : ChatGroq;
  critic_model : ChatGroq;
  gemini : GeminiSpecialist.t;
  chat_history : list message;
  user_profile : UserProfile;
  learned_patterns : LearnedPatterns;
  routing_stats : RoutingStats
}.

(** An element of the persisted ["chat_history"]. *)
Record saved_message : Type := {
  role : string;
  saved_content : string;
  saved_timestamp : string
}.

(** The dictionary [save_memory] writes. *)
Record saved_data : Type := {
  sd_user_id : string;
  sd_user_profile : UserProfile;
  sd_learned_patterns : LearnedPatterns;
  sd_routing_stats : RoutingStats;
  sd_gemini_stats : GeminiSpecialist.stats_t;
  sd_chat_history : list saved_message;
  sd_last_saved : string
}.

(** A file of [user_memories/]: the document a save wrote, or bytes that
    [json.load] rejects. *)
Inductive file : Type :=
| Blob (data : saved_data)
| Corrupt.

(** What the disk does on a write: the file is written; [open] fails and the
    old file stays; or the write breaks off after [open] truncated the file. *)
Inductive disk_outcome : Type := WriteOk | OpenFails | WriteBreaks.

(** The calls that leave the process, in the order they are made. *)
Inductive call : Type :=
| GeminiCall (question context : string)
| GroqCall (messages : list message)
| CriticCall (user_message ai_response : string)
| DiskWrite (path : string).

(** The orchestrator in its surroundings. *)
Record world : Type := {
  self : MavkusAI;
  files : gmap string file;
  calls : list call
}.

(** What the surroundings answer during one turn. *)
Record turn_env : Type := {
  now : string;
  gemini_reply : exn + string;
  groq_reply : exn + string;
  critic_reply : exn + string;
  disk : disk_outcome
}.

(** The second component of what [chat] returns. *)
Record metadata : Type := {
  md_routed_to_gemini : bool;
  md_gemini_used : bool;
  md_gemini_response : option GeminiSpecialist.answer_t;
  md_critique : json
}.

(** *** Field updates *)

Definition set_metrics (f : QualityMetrics -> QualityMetrics) (p : UserProfile) : UserProfile :=
  {| style := style p; topics_of_interest := topics_of_interest p;
     conversation_count := conversation_count p;
     preferred_response_length := preferred_response_length p;
     language_level := language_level p;
     quality_metrics := f (quality_metrics p) |}.

Definition set_avg (q : Q) (m : QualityMetrics) : QualityMetrics :=
  {| avg_response_score := q; improvement_trend := improvement_trend m;
     weak_areas := weak_areas m; strong_areas := strong_areas m |}.

Definition set_trend (f : list Q -> list Q) (m : QualityMetrics) : QualityMetrics :=
  {| avg_response_score := avg_response_score m;
     improvement_trend := f (improvement_trend m);
     weak_areas := weak_areas m; strong_areas := strong_areas m |}.

Definition set_weak (f : list string -> list string) (m : QualityMetrics) : QualityMetrics :=
  {| avg_response_score := avg_response_score m;
     improvement_trend := improvement_trend m;
     weak_areas := f (weak_areas m); strong_areas := strong_areas m |}.

Definition set_strong (f : list string -> list string) (m : QualityMetrics) : QualityMetrics :=
  {| avg_response_score := avg_response_score m;
     improvement_trend := improvement_trend m;
     weak_areas := weak_areas m; strong_areas := f (strong_areas m) |}.

Definition set_style (s : style_t) (p : UserProfile) : UserProfile :=
  {| style := s; topics_of_interest := topics_of_interest p;
     conversation_count := conversation_count p;
     preferred_response_length := preferred_response_length p;
     language_level := language_level p;
     quality_metrics := quality_metrics p |}.

Definition set_topics (f : list string -> list string) (p : UserProfile) : UserProfile :=
  {| style := style p; topics_of_interest := f (topics_of_interest p);
     conversation_count := conversation_count p;
     preferred_response_length := preferred_response_length p;
     language_level := language_level p;
     quality_metrics := quality_metrics p |}.

Definition add_conversation (p : UserProfile) : UserProfile :=
  {| style := style p; topics_of_interest := topics_of_interest p;
     conversation_count := conversation_count p + 1;
     preferred_response_length := preferred_response_length p;
     language_level := language_level p;
     quality_metrics := quality_metrics p |}.

Definition add_question (r : RoutingStats) : RoutingStats :=
  {| total_questions := total_questions r + 1;
     routed_to_gemini := routed_to_gemini r;
     handled_by_coordinator := handled_by_coordinator r;
     gemini_success_rate := gemini_success_rate r |}.

Definition add_routed (r : RoutingStats) : RoutingStats :=
  {| total_questions := total_questions r;
     routed_to_gemini := routed_to_gemini r + 1;
     handled_by_coordinator := handled_by_coordinator r;
     gemini_success_rate := gemini_success_rate r |}.

Definition add_handled (r : RoutingStats) : RoutingStats :=
  {| total_questions := total_questions r;
     routed_to_gemini := routed_to_gemini r;
     handled_by_coordinator := handled_by_coordinator r + 1;
     gemini_success_rate := gemini_success_rate r |}.

Definition add_gemini_consultation (c : consultation) (l : LearnedPatterns) : LearnedPatterns :=
  {| successful_responses := successful_responses l;
     failed_responses := failed_responses l;
     improvement_strategies := improvement_strategies l;
     gemini_consultations := gemini_consultations l ++ [c] |}.

Definition with_gemini (g : GeminiSpecialist.t) (a : MavkusAI) : MavkusAI :=
  {| user_id := user_id a; save_file := save_file a; model := model a;
     critic_model := critic_model a; gemini := g;
     chat_history := chat_history a; user_profile := user_profile a;
     learned_patterns := learned_patterns a; routing_stats := routing_stats a |}.

Definition with_history (h : list message) (a : MavkusAI) : MavkusAI :=
  {| user_id := user_id a; save_file := save_file a; model := model a;
     critic_model := critic_model a; gemini := gemini a;
     chat_history := h; user_profile := user_profile a;
     learned_patterns := learned_patterns a; routing_stats := routing_stats a |}.

Definition with_profile (p : UserProfile) (a : MavkusAI) : MavkusAI :=
  {| user_id := user_id a; save_file := save_file a; model := model a;
     critic_model := critic_model a; gemini := gemini a;
     chat_history := chat_history a; user_profile := p;
     learned_patterns := learned_patterns a; routing_stats := routing_stats a |}.

Definition with_patterns (l : LearnedPatterns) (a : MavkusAI) : MavkusAI :=
  {| user_id := user_id a; save_file := save_file a; model := model a;
     critic_model := critic_model a; gemini := gemini a;
     chat_history := chat_history a; user_profile := user_profile a;
     learned_patterns := l; routing_stats := routing_stats a |}.

Definition with_stats (r : RoutingStats) (a : MavkusAI) : MavkusAI :=
  {| user_id := user_id a; save_file := save_file a; model := model a;
     critic_model := critic_model a; gemini := gemini a;
     chat_history := chat_history a; user_profile := user_profile a;
     learned_patterns := learned_patterns a; routing_stats := r |}.

Definition on_self (f : MavkusAI -> MavkusAI) (w : world) : world :=
  {| self := f (self w); files := files w; calls := calls w |}.

Definition with_files (fs : gmap string file) (w : world) : world :=
  {| self := self w; files := fs; calls := calls w |}.

Definition log_call (c : call) (w : world) : world :=
  {| self := self w; files := files w; calls := calls w ++ [c] |}.

(** ** Initial values *)

Definition _init_user_profile : UserProfile :=
  {| style := Neutral;
     topics_of_interest := [];
     conversation_count := 0;
     preferred_response_length := "medium";
     language_level := "medium";
     quality_metrics :=
       {| avg_response_score := 0; improvement_trend := [];
          weak_areas := []; strong_areas := [] |} |}.

Definition _init_learned_patterns : LearnedPatterns :=
  {| successful_responses := []; failed_responses := [];
     improvement_strategies := []; gemini_consultations := [] |}.

Definition _init_routing_stats : RoutingStats :=
  {| total_questions := 0; routed_to_gemini := 0;
     handled_by_coordinator := 0; gemini_success_rate := 0 |}.

(** The keyword tables of [analyze_user_message] and [should_route_to_gemini]. *)

Definition interest_science_keywords : list string :=
  ["fisica"; "chimica"; "biologia"; "matematica"; "scienza"].

Definition interest_coding_keywords : list string :=
  ["python"; "javascript"; "programmazione"; "codice"; "algoritmo"].

Definition science_keywords : list string :=
  ["fisica"; "chimica"; "biologia"; "matematica";
   "atomo"; "molecola"; "cellula"; "equazione";
   "teorema"; "energia"; "forza"; "gravità";
   "relatività"; "quantistica"; "organico"].

Definition strong_signals : list string := ["fisica"; "chimica"; "biologia"].

(** The value [_critique_response] returns when the critic call or the
    decoding of its answer raises. *)
Definition fallback_critique : json :=
  JObj [("scores", JObj [("rilevanza", JNum 7); ("chiarezza", JNum 7);
                         ("completezza", JNum 7); ("accuratezza", JNum 7);
                         ("utilita", JNum 7)]);
        ("overall_score", JNum 7);
        ("strengths", JArr [JStr "Risposta generica"]);
        ("weaknesses", JArr [JStr "Valutazione non disponibile"]);
        ("improvement_suggestion", JStr "Continua a migliorare");
        ("category", JStr "generale")].

Definition style_name (s : style_t) : string :=
  match s with
  | Formal => "formal"
  | Casual => "casual"
  | Technical => "technical"
  | Neutral => "neutral"
  end.

Definition nl : string := String (ascii_of_nat 10) EmptyString.

Definition fence_json : string := "```json".
Definition fence : string := "```".

(** [l[i]], raising [IndexError] out of range. *)
Definition index {A : Type} (l : list A) (i : nat) : exn + A :=
  match nth_error l i with
  | Some x => inr x
  | None => inl (IndexError "list index out of range")
  end.

(** The text [_critique_response] hands to [json.loads]: the answer
    stripped, and when it holds a code fence, what stands between the first
    fence and the next. *)
Definition extract_json (raw : string) : exn + string :=
  let content := Py.strip raw in
  let between (opening : string) : exn + string :=
    match index (Py.split opening content) 1 with
    | inl e => inl e
    | inr after =>
        match index (Py.split fence after) 0 with
        | inl e => inl e
        | inr inside => inr (Py.strip inside)
        end
    end in
  if Py.str_in fence_json content then between fence_json
  else if Py.str_in fence content then between fence
  else inr content.

(** [d.get(key, default)]; on anything but a [dict] the attribute lookup
    [d.get] raises. *)
Definition dict_get {St : Type} (d : json) (key : string) (dflt : json) : Run.M St json :=
  match d with
  | JObj items => Run.ret (default dflt (Json.get key items))
  | _ => Run.raise (AttributeError "object has no attribute 'get'")
  end.

(** ** The orchestrator: [MavkusAI] *)

(** What [__init__] finds in the process: [GROQ_API_KEY] of the environment,
    whether the Gemini package was imported, and whether the two client
    constructors return. *)
Record process_env : Type := {
  env_groq_api_key : option string;
  gemini_sdk : bool;
  gemini_configure_ok : bool;
  groq_client : exn + unit
}.

Section Mavkus.

(** [str.lower] and [json.loads]; the latter answers [None] where the
    library raises [JSONDecodeError]. *)
Variable lower : string -> string.
Variable json_loads : string -> option json.

Local Open Scope run_scope.

(** *** Profile update *)

Definition detect_style (message_lower : string) : style_t :=
  if Py.str_in "gentilmente" message_lower || Py.str_in "per favore" message_lower
  then Formal
  else if Py.str_in "ciao" message_lower || Py.str_in "hey" message_lower
  then Casual
  else if Py.str_in "funzione" message_lower || Py.str_in "codice" message_lower
  then Technical
  else Neutral.

(** One pass of the loop over the interest keywords. *)
Definition note_interest (message_lower : string) (topics : list string) (keyword : string)
  : list string :=
  if Py.str_in keyword message_lower && negb (mem keyword topics)
  then topics ++ [keyword]
  else topics.

Definition analyze_user_message (message : string) (p : UserProfile) : UserProfile :=
  let message_lower := lower message in
  let p := set_style (detect_style message_lower) p in
  let p := set_topics
             (fun topics =>
                fold_left (note_interest message_lower)
                  (interest_science_keywords ++ interest_coding_keywords) topics) p in
  if (10 <? length (topics_of_interest p))%nat
  then set_topics (Py.last_n 10) p
  else p.

(** *** Routing *)

Definition should_route_to_gemini (question : string) : bool :=
  let question_lower := lower question in
  let science_count :=
    list_sum (map (fun _ => 1%nat)
                (List.filter (fun kw => Py.str_in kw question_lower) science_keywords)) in
  (2 <=? science_count)%nat
  || existsb (fun kw => Py.str_in kw question_lower) strong_signals.

(** *** Self-critique *)

Definition _critique_response (user_message ai_response : string) (env : turn_env)
  : Run.M world json :=
  Run.try_except
    (Run.modify (log_call (CriticCall user_message ai_response)) ;;
     content <- Run.of_sum (critic_reply env) ;;
     json_str <- Run.of_sum (extract_json content) ;;
     match json_loads json_str with
     | Some critique => Run.ret critique
     | None => Run.raise (JSONDecodeError "Expecting value")
     end)
    (fun _ => Run.ret fallback_critique).

(** A number, or the [TypeError] of the arithmetic or comparison that met
    something else. *)
Definition numeric {St : Type} (v : json) : Run.M St Q :=
  match Json.as_number v with
  | Some q => Run.ret q
  | None => Run.raise (TypeError "unsupported operand type")
  end.

(** One pass of the loop over [critique["scores"]]. *)
Definition note_area (item : string * json) : Run.M UserProfile unit :=
  let '(area, v) := item in
  value <- numeric v ;;
  p <- Run.get ;;
  let metrics := quality_metrics p in
  if Qle_bool 8 value && negb (mem area (strong_areas metrics)) then
    Run.modify (set_metrics (set_strong (fun l => l ++ [area])))
  else if Qle_bool value 5 && negb (mem area (weak_areas metrics)) then
    Run.modify (set_metrics (set_weak (fun l => l ++ [area])))
  else Run.ret tt.

(** [x = x[-n:]] when [x] is longer than [n]. *)
Definition cap {A : Type} (n : nat) (l : list A) : list A :=
  if (n <? length l)%nat then Py.last_n n l else l.

(** [_learn_from_critique].  The mean is computed in exact arithmetic; the
    program computes it on [float], with rounding, and raises
    [OverflowError] where the score or the count is an [int] beyond the
    largest [float], which is not modelled. *)
Definition _learn_from_critique (critique : json) : Run.M UserProfile unit :=
  score_v <- dict_get critique "overall_score" (JNum 7) ;;
  p <- Run.get ;;
  let count := conversation_count p in
  let current_avg := avg_response_score (quality_metrics p) in
  score <- numeric score_v ;;
  (if (count =? 0)%Z
   then Run.raise (ZeroDivisionError "float division by zero")
   else Run.ret tt) ;;
  Run.modify (set_metrics
    (set_avg ((current_avg * inject_Z (count - 1) + score) / inject_Z count)%Q)) ;;
  Run.modify (set_metrics (set_trend (fun l => l ++ [score]))) ;;
  Run.modify (set_metrics (set_trend (cap 20))) ;;
  scores_v <- dict_get critique "scores" (JObj []) ;;
  items <- match scores_v with
           | JObj items => Run.ret items
           | _ => Run.raise (AttributeError "object has no attribute 'items'")
           end ;;
  Run.for_each items note_area ;;
  Run.modify (set_metrics (set_strong (cap 5))) ;;
  Run.modify (set_metrics (set_weak (cap 5))).

(** *** Memory *)

Definition to_saved (stamp : string) (msg : message) : saved_message :=
  {| role := match msg with HumanMessage _ => "human" | _ => "ai" end;
     saved_content :=
       match msg with
       | HumanMessage c | AIMessage c | SystemMessage c => c
       | SystemPrompt _ _ _ => ""
       end;
     saved_timestamp := stamp |}.

Definition save_memory (env : turn_env) : Run.M world unit :=
  Run.try_except
    (w <- Run.get ;;
     let a := self w in
     let data :=
       {| sd_user_id := user_id a;
          sd_user_profile := user_profile a;
          sd_learned_patterns := learned_patterns a;
          sd_routing_stats := routing_stats a;
          sd_gemini_stats := GeminiSpecialist.get_stats (gemini a);
          sd_chat_history := map (to_saved (now env)) (Py.last_n 50 (chat_history a));
          sd_last_saved := now env |} in
     Run.modify (log_call (DiskWrite (save_file a))) ;;
     match disk env with
     | WriteOk => Run.modify (with_files (<[save_file a := Blob data]> (files w)))
     | OpenFails => Run.raise (OSError "cannot open the memory file")
     | WriteBreaks =>
         Run.modify (with_files (<[save_file a := Corrupt]> (files w))) ;;
         Run.raise (OSError "cannot write the memory file")
     end)
    (fun _ => Run.ret tt).

Definition add_message (msg : message) (w : world) : world :=
  on_self (fun a => with_history (chat_history a ++ [msg]) a) w.

Definition load_memory : Run.M world unit :=
  Run.try_except
    (w <- Run.get ;;
     match files w !! save_file (self w) with
     | None => Run.ret tt
     | Some Corrupt => Run.raise (JSONDecodeError "Expecting value")
     | Some (Blob data) =>
         Run.modify (on_self (with_profile (sd_user_profile data))) ;;
         Run.modify (on_self (with_patterns (sd_learned_patterns data))) ;;
         Run.modify (on_self (with_stats (sd_routing_stats data))) ;;
         Run.modify (on_self (with_history [])) ;;
         Run.for_each (sd_chat_history data)
           (fun msg_data =>
              if String.eqb (role msg_data) "human"
              then Run.modify (add_message (HumanMessage (saved_content msg_data)))
              else Run.modify (add_message (AIMessage (saved_content msg_data))))
     end)
    (fun _ => Run.ret tt).

Definition clear_memory : Run.M world unit :=
  Run.modify (on_self (with_history [])) ;;
  Run.modify (on_self (with_profile _init_user_profile)) ;;
  Run.modify (on_self (with_patterns _init_learned_patterns)) ;;
  Run.modify (on_self (with_stats _init_routing_stats)) ;;
  w <- Run.get ;;
  Run.modify (with_files (delete (save_file (self w)) (files w))).

(** *** The turn *)

Definition consultation_note (answer : string) : string :=
  String.append "CONSULENZA SCIENTIFICA da Gemini:"
    (String.append nl (String.append nl (String.append answer
      (String.append nl (String.append nl
        "Usa queste informazioni per rispondere all'utente."))))).

Definition chat (user_message : string) (enable_critique : bool) (env : turn_env)
  : Run.M world (string * metadata) :=
  Run.modify (on_self (fun a =>
    with_profile (analyze_user_message user_message (user_profile a)) a)) ;;
  Run.modify (on_self (fun a => with_profile (add_conversation (user_profile a)) a)) ;;
  Run.modify (on_self (fun a => with_stats (add_question (routing_stats a)) a)) ;;
  Run.modify (add_message (HumanMessage user_message)) ;;
  let route_to_gemini := should_route_to_gemini user_message in
  w <- Run.get ;;
  gemini_response <-
    (if route_to_gemini && GeminiSpecialist.available (gemini (self w)) then
       Run.modify (on_self (fun a => with_stats (add_routed (routing_stats a)) a)) ;;
       let context := String.append "Stile: " (style_name (style (user_profile (self w)))) in
       r <- Run.zoom (fun w => gemini (self w)) (fun g => on_self (with_gemini g))
              (GeminiSpecialist.consult user_message context (gemini_reply env)) ;;
       (if GeminiSpecialist.success r then
          Run.modify (on_self (fun a => with_patterns
            (add_gemini_consultation
               {| timestamp := now env;
                  question := Py.take_chars 100 user_message;
                  consultation_success := true |}
               (learned_patterns a)) a))
        else Run.ret tt) ;;
       Run.ret (Some r)
     else
       Run.modify (on_self (fun a => with_stats (add_handled (routing_stats a)) a)) ;;
       Run.ret None) ;;
  w <- Run.get ;;
  let gemini_used :=
    match gemini_response with
    | Some r => GeminiSpecialist.success r
    | None => false
    end in
  let messages :=
    [SystemPrompt (user_profile (self w)) (GeminiSpecialist.specialty (gemini (self w)))
       (routing_stats (self w))]
    ++ match gemini_response with
       | Some r => if GeminiSpecialist.success r
                   then [SystemMessage (consultation_note (GeminiSpecialist.answer r))]
                   else []
       | None => []
       end
    ++ Py.last_n 10 (chat_history (self w)) in
  ai_response <-
    Run.try_except
      (Run.modify (log_call (GroqCall messages)) ;;
       content <- Run.of_sum (groq_reply env) ;;
       Run.modify (add_message (AIMessage content)) ;;
       Run.ret content)
      (fun e =>
         let text := String.append "❌ Errore generazione risposta: " (str_of_exn e) in
         Run.modify (add_message (AIMessage text)) ;;
         Run.ret text) ;;
  critique <-
    (if enable_critique then
       critique <- _critique_response user_message ai_response env ;;
       Run.zoom (fun w => user_profile (self w)) (fun p => on_self (with_profile p))
         (_learn_from_critique critique) ;;
       Run.ret critique
     else Run.ret (JObj [])) ;;
  w <- Run.get ;;
  (if (conversation_count (user_profile (self w)) mod 5 =? 0)%Z
   then save_memory env
   else Run.ret tt) ;;
  Run.ret (ai_response,
           {| md_routed_to_gemini := route_to_gemini;
              md_gemini_used := gemini_used;
              md_gemini_response := gemini_response;
              md_critique := critique |}).

(** *** Construction *)

Definition memory_path (uid : string) : string :=
  String.append "user_memories/mavkus_memory_" (String.append uid ".json").

(** The orchestrator as [__init__] has it just before it loads its memory. *)
Definition blank (uid key : string) (specialist : GeminiSpecialist.t) : MavkusAI :=
  {| user_id := uid;
     save_file := memory_path uid;
     model := {| model_name := "llama-3.3-70b-versatile"; temperature := 7 # 10;
                 api_key := key; max_tokens := 4096 |};
     critic_model := {| model_name := "llama-3.3-70b-versatile"; temperature := 3 # 10;
                        api_key := key; max_tokens := 1024 |};
     gemini := specialist;
     chat_history := [];
     user_profile := _init_user_profile;
     learned_patterns := _init_learned_patterns;
     routing_stats := _init_routing_stats |}.

(** [MavkusAI(user_id, groq_api_key, gemini_api_key)] over the files [fs]. *)
Definition init (uid : string) (groq_api_key gemini_api_key : option string)
    (penv : process_env) (fs : gmap string file) : exn + MavkusAI :=
  let groq_key := if truthy groq_api_key then groq_api_key else env_groq_api_key penv in
  if negb (truthy groq_key) then inl (ValueError "GROQ_API_KEY mancante")
  else
    match groq_client penv with
    | inl e => inl e
    | inr _ =>
        let a :=
          blank uid (default "" groq_key)
            (GeminiSpecialist.init (gemini_sdk penv) (gemini_configure_ok penv)
               gemini_api_key) in
        inr (self (snd (load_memory {| self := a; files := fs; calls := [] |})))
    end.

(** ** The serving layer: document store, instance cache, save-keys *)

(** A Fernet token: opaque but for [decrypt]. *)
Inductive token : Type := Encrypted (plain : string).

Definition encrypt (value : string) : token := Encrypted value.

Definition decrypt (t : token) : string :=
  match t with Encrypted plain => plain end.

(** A document of the [users] collection, by the fields the keys touch. *)
Record user_doc : Type := {
  doc_groq : option token;
  doc_gemini : option token;
  api_keys_configured : bool
}.

(** The dictionary of keys passed between the endpoint and the store. *)
Record api_keys_t : Type := {
  groq_api_key : option string;
  gemini_api_key : option string
}.

Record server : Type := {
  users : gmap string user_doc;
  instances : list (string * MavkusAI);
  memory_files : gmap string file;
  process : process_env
}.

Definition with_users (u : gmap string user_doc) (s : server) : server :=
  {| users := u; instances := instances s;
     memory_files := memory_files s; process := process s |}.

Definition with_instances (c : list (string * MavkusAI)) (s : server) : server :=
  {| users := users s; instances := c;
     memory_files := memory_files s; process := process s |}.

(** [FirebaseService.save_api_keys]; [store_ok] tells whether the store
    answers. *)
Definition firebase_save_api_keys (uid : string) (keys : api_keys_t) (store_ok : bool)
  : Run.M server bool :=
  Run.try_except
    (let enc (k : option string) : option token :=
       if truthy k then Some (encrypt (default "" k)) else None in
     let groq := enc (groq_api_key keys) in
     let gem := enc (gemini_api_key keys) in
     s <- Run.get ;;
     if negb store_ok then Run.raise (RemoteError "503 store unavailable")
     else
       match users s !! uid with
       | None => Run.raise (RemoteError "404 No document to update")
       | Some _ =>
           Run.modify (with_users
             (<[uid := {| doc_groq := groq; doc_gemini := gem;
                          api_keys_configured := present groq || present gem |}]>
                (users s))) ;;
           Run.ret true
       end)
    (fun _ => Run.ret false).

(** [FirebaseService.get_api_keys] *)
Definition firebase_get_api_keys (uid : string) (store_ok : bool) : Run.M server api_keys_t :=
  Run.try_except
    (s <- Run.get ;;
     if negb store_ok then Run.raise (RemoteError "503 store unavailable")
     else
       match users s !! uid with
       | None => Run.ret {| groq_api_key := None; gemini_api_key := None |}
       | Some doc =>
           Run.ret {| groq_api_key := option_map decrypt (doc_groq doc);
                      gemini_api_key := option_map decrypt (doc_gemini doc) |}
       end)
    (fun _ => Run.ret {| groq_api_key := None; gemini_api_key := None |}).

(** The [lru_cache(maxsize=100)] around [_create_ai_instance]: entries by
    user, most recently used first. *)
Fixpoint cache_find (uid : string) (c : list (string * MavkusAI)) : option MavkusAI :=
  match c with
  | [] => None
  | (k, a) :: rest => if String.eqb k uid then Some a else cache_find uid rest
  end.

Definition cache_drop (uid : string) (c : list (string * MavkusAI)) : list (string * MavkusAI) :=
  List.filter (fun e => negb (String.eqb (fst e) uid)) c.

Definition cache_put (uid : string) (a : MavkusAI) (c : list (string * MavkusAI))
  : list (string * MavkusAI) :=
  firstn 100 ((uid, a) :: cache_drop uid c).

Definition _create_ai_instance (uid : string) (store_ok : bool) : Run.M server MavkusAI :=
  s <- Run.get ;;
  match cache_find uid (instances s) with
  | Some ai =>
      Run.modify (with_instances (cache_put uid ai (instances s))) ;;
      Run.ret ai
  | None =>
      ai <- Run.try_except
              (keys <- firebase_get_api_keys uid store_ok ;;
               Run.of_sum (init uid (groq_api_key keys) (gemini_api_key keys)
                             (process s) (memory_files s)))
              (fun e => Run.raise (HTTPException "500" (str_of_exn e))) ;;
      Run.modify (with_instances (cache_put uid ai (instances s))) ;;
      Run.ret ai
  end.

(** [get_ai_instance], the undecorated dependency that calls the factory. *)
Definition get_ai_instance (uid : string) (store_ok : bool) : Run.M server MavkusAI :=
  _create_ai_instance uid store_ok.

(** A module-level function is a plain function object, or the wrapper
    [lru_cache] puts around one; only the wrapper has [cache_clear]. *)
Inductive function_object : Type :=
| PlainFunction (name : string)
| LruCacheWrapper (name : string).

Definition _create_ai_instance_object : function_object :=
  LruCacheWrapper "_create_ai_instance".

Definition get_ai_instance_object : function_object :=
  PlainFunction "get_ai_instance".

(** [f.cache_clear()] *)
Definition cache_clear (f : function_object) : Run.M server unit :=
  match f with
  | LruCacheWrapper _ => Run.modify (with_instances [])
  | PlainFunction _ =>
      Run.raise (AttributeError "'function' object has no attribute 'cache_clear'")
  end.

Record SaveAPIKeysRequest : Type := {
  req_user_id : string;
  req_groq_api_key : option string;
  req_gemini_api_key : option string
}.

Record save_keys_response : Type := {
  resp_success : bool;
  resp_message : string;
  resp_user_id : string;
  keys_saved : list string
}.

(** The endpoint [POST /api/auth/save-keys]. *)
Definition save_api_keys (request : SaveAPIKeysRequest) (store_ok : bool)
  : Run.M server save_keys_response :=
  Run.try_except
    (let keys :=
       {| groq_api_key :=
            if truthy (req_groq_api_key request) then req_groq_api_key request else None;
          gemini_api_key :=
            if truthy (req_gemini_api_key request) then req_gemini_api_key request else None |} in
     success <- firebase_save_api_keys (req_user_id request) keys store_ok ;;
     if success : bool then
       cache_clear get_ai_instance_object ;;
       Run.ret {| resp_success := true;
                  resp_message := "API keys salvate";
                  resp_user_id := req_user_id request;
                  keys_saved :=
                    (if present (groq_api_key keys) then ["groq_api_key"] else [])
                    ++ (if present (gemini_api_key keys) then ["gemini_api_key"] else []) |}
     else Run.raise (HTTPException "500" "Errore salvataggio Firebase"))
    (fun e => Run.raise (HTTPException "500" (str_of_exn e))).

(** ** Auxiliary definitions for the properties *)

(** *** The turn, cut at the comments of [chat] *)

(** "Analizza utente" and "Aggiungi a cronologia" *)
Definition begin_turn (user_message : string) (w : world) : world :=
  add_message (HumanMessage user_message)
    (on_self (fun a => with_stats (add_question (routing_stats a)) a)
       (on_self (fun a => with_profile (add_conversation (user_profile a)) a)
          (on_self (fun a =>
             with_profile (analyze_user_message user_message (user_profile a)) a) w))).

(** "Routing decision" *)
Definition consult_phase (user_message : string) (env : turn_env)
  : Run.M world (option GeminiSpecialist.answer_t) :=
  w <- Run.get ;;
  if should_route_to_gemini user_message && GeminiSpecialist.available (gemini (self w)) then
    Run.modify (on_self (fun a => with_stats (add_routed (routing_stats a)) a)) ;;
    let context := String.append "Stile: " (style_name (style (user_profile (self w)))) in
    r <- Run.zoom (fun w => gemini (self w)) (fun g => on_self (with_gemini g))
           (GeminiSpecialist.consult user_message context (gemini_reply env)) ;;
    (if GeminiSpecialist.success r then
       Run.modify (on_self (fun a => with_patterns
         (add_gemini_consultation
            {| timestamp := now env;
               question := Py.take_chars 100 user_message;
               consultation_success := true |}
            (learned_patterns a)) a))
     else Run.ret tt) ;;
    Run.ret (Some r)
  else
    Run.modify (on_self (fun a => with_stats (add_handled (routing_stats a)) a)) ;;
    Run.ret None.

(** "Prepara messaggi per Groq" *)
Definition system_messages (gemini_response : option GeminiSpecialist.answer_t) (w : world)
  : list message :=
  [SystemPrompt (user_profile (self w)) (GeminiSpecialist.specialty (gemini (self w)))
     (routing_stats (self w))]
  ++ match gemini_response with
     | Some r => if GeminiSpecialist.success r
                 then [SystemMessage (consultation_note (GeminiSpecialist.answer r))]
                 else []
     | None => []
     end.

(** The text the turn answers with, whatever the generalist does. *)
Definition response_text (env : turn_env) : string :=
  match groq_reply env with
  | inr content => content
  | inl e => String.append "❌ Errore generazione risposta: " (str_of_exn e)
  end.

(** "Genera risposta" *)
Definition generate_phase (gemini_response : option GeminiSpecialist.answer_t) (env : turn_env)
    (w : world) : world :=
  add_message (AIMessage (response_text env))
    (log_call (GroqCall (system_messages gemini_response w
                         ++ Py.last_n 10 (chat_history (self w)))) w).

(** "Auto-valutazione" *)
Definition critique_phase (user_message ai_response : string) (enable_critique : bool)
    (env : turn_env) : Run.M world json :=
  if enable_critique then
    critique <- _critique_response user_message ai_response env ;;
    Run.zoom (fun w => user_profile (self w)) (fun p => on_self (with_profile p))
      (_learn_from_critique critique) ;;
    Run.ret critique
  else Run.ret (JObj []).

(** "Salva periodicamente" *)
Definition persist_phase (env : turn_env) : Run.M world unit :=
  w <- Run.get ;;
  if (conversation_count (user_profile (self w)) mod 5 =? 0)%Z
  then save_memory env
  else Run.ret tt.

(** *** Sequences of turns *)

(** One call of [chat]: the message, the critique flag, the surroundings. *)
Definition turn : Type := (string * bool * turn_env)%type.

(** The calls [chat t1; chat t2; ...] in a row, up to the first that raises. *)
Fixpoint run_turns (turns : list turn) : Run.M world (list (string * metadata)) :=
  match turns with
  | [] => Run.ret []
  | (user_message, enable_critique, env) :: rest =>
      r <- chat user_message enable_critique env ;;
      rs <- run_turns rest ;;
      Run.ret (r :: rs)
  end.

(** The capacities of the bounded lists of a profile. *)
Definition within_capacity (p : UserProfile) : Prop :=
  (length (topics_of_interest p) <= 10)%nat /\
  (length (improvement_trend (quality_metrics p)) <= 20)%nat /\
  (length (strong_areas (quality_metrics p)) <= 5)%nat /\
  (length (weak_areas (quality_metrics p)) <= 5)%nat.

(** [part] is the last [n] elements of [l], or all of [l] when it has fewer:
    what is left of [l] once its oldest elements are dropped from the front
    until at most [n] remain. *)
Definition last_of {A : Type} (n : nat) (l part : list A) : Prop :=
  exists dropped : list A,
    l = dropped ++ part /\ length part = Nat.min n (length l).

(** The interest keywords a message adds to the topics: those that occur in
    it and are not recorded yet, in the order of the tables. *)
Definition new_interests (message_lower : string) (topics : list string) : list string :=
  List.filter (fun kw => Py.str_in kw message_lower && negb (mem kw topics))
    (interest_science_keywords ++ interest_coding_keywords).

(** The criteria a critique adds to the strong areas: those scoring 8 or
    more that are not listed yet, in the order of the dictionary. *)
Definition new_strong_areas (scores : list (string * json)) (strong : list string)
  : list string :=
  map fst
    (List.filter
       (fun item => match Json.as_number (snd item) with
                    | Some value => Qle_bool 8 value
                    | None => false
                    end && negb (mem (fst item) strong))
       scores).

(** The criteria a critique adds to the weak areas: those scoring 5 or less
    that are not listed yet. *)
Definition new_weak_areas (scores : list (string * json)) (weak : list string)
  : list string :=
  map fst
    (List.filter
       (fun item => match Json.as_number (snd item) with
                    | Some value => Qle_bool value 5
                    | None => false
                    end && negb (mem (fst item) weak))
       scores).

(** The largest finite [float], (2^53 - 1) * 2^971. *)
Definition float_max : Z := ((2 ^ 53 - 1) * 2 ^ 971)%Z.

(** A number that arithmetic with a [float] accepts: a [float], or an
    [int] that converts to one without [OverflowError]. *)
Definition in_float_range (q : Q) : Prop :=
  (Qabs q <= inject_Z float_max)%Q.

(** The overall score [_learn_from_critique] reads in a critique. *)
Definition overall_score (critique : json) : option Q :=
  match critique with
  | JObj items => Json.as_number (default (JNum 7) (Json.get "overall_score" items))
  | _ => None
  end.

(** The criteria of a critique with their scores: the items of its
    ["scores"] dictionary. *)
Definition criterion_scores (critique : json) : list (string * json) :=
  match critique with
  | JObj items =>
      match Json.get "scores" items with
      | Some (JObj scores) => scores
      | _ => []
      end
  | _ => []
  end.

(** A critique on which [_learn_from_critique] meets no error: a
    dictionary whose overall score, when present, is a number within the
    range of a [float], and whose scores, when present, are a dictionary of
    numbers. *)
Definition well_typed_critique (critique : json) : Prop :=
  match critique with
  | JObj items =>
      (exists score,
         Json.as_number (default (JNum 7) (Json.get "overall_score" items)) = Some score /\
         in_float_range score) /\
      match default (JObj []) (Json.get "scores" items) with
      | JObj scores => Forall (fun item => is_Some (Json.as_number (snd item))) scores
      | _ => False
      end
  | _ => False
  end.

(** The arithmetic mean of a list of scores. *)
Definition mean (scores : list Q) : Q :=
  (fold_right Qplus 0 scores / inject_Z (Z.of_nat (length scores)))%Q.

(** The critique [_critique_response] returns in the surroundings [env]. *)
Definition critique_of (env : turn_env) : json :=
  match critic_reply env with
  | inl _ => fallback_critique
  | inr content =>
      match extract_json content with
      | inl _ => fallback_critique
      | inr json_str => default fallback_critique (json_loads json_str)
      end
  end.

(** The critic call fails, or what it answers cannot be decoded once the
    code fence is stripped. *)
Definition critique_unavailable (env : turn_env) : Prop :=
  match critic_reply env with
  | inl _ => True
  | inr content =>
      match extract_json content with
      | inl _ => True
      | inr json_str => json_loads json_str = None
      end
  end.

(** A turn whose critique, if it runs one, has the expected types. *)
Definition turn_well_typed (t : turn) : Prop :=
  snd (fst t) = false \/ well_typed_critique (critique_of (snd t)).

(** A conversation count the mean can be computed at: positive once the
    turn is counted, and within the range of a [float]. *)
Definition countable (p : UserProfile) (turns : nat) : Prop :=
  (0 <= conversation_count p)%Z /\
  (conversation_count p + Z.of_nat turns <= float_max)%Z.

(** A step that leaves the conversation, the profile, the files and the
    call log alone. *)
Definition keeps_conversation (w w' : world) : Prop :=
  chat_history (self w') = chat_history (self w) /\
  user_profile (self w') = user_profile (self w) /\
  gemini_success_rate (routing_stats (self w')) = gemini_success_rate (routing_stats (self w)) /\
  save_file (self w') = save_file (self w) /\
  files w' = files w /\
  calls w' = calls w.

(** From [p] to [p'] the lists of strong and weak areas were only appended
    to, and nothing else changed. *)
Definition areas_grow (p p' : UserProfile) : Prop :=
  style p' = style p /\
  topics_of_interest p' = topics_of_interest p /\
  conversation_count p' = conversation_count p /\
  avg_response_score (quality_metrics p') = avg_response_score (quality_metrics p) /\
  improvement_trend (quality_metrics p') = improvement_trend (quality_metrics p) /\
  (exists added, strong_areas (quality_metrics p') = strong_areas (quality_metrics p) ++ added) /\
  (exists added, weak_areas (quality_metrics p') = weak_areas (quality_metrics p) ++ added).

(** A call that does not go to the generalist model. *)
Definition not_generalist (c : call) : Prop :=
  match c with
  | GroqCall _ => False
  | _ => True
  end.

(** A system message, as opposed to a message of the conversation. *)
Definition is_system (msg : message) : Prop :=
  match msg with
  | SystemPrompt _ _ _ | SystemMessage _ => True
  | _ => False
  end.

(** A message of the conversation: what [add_user_message] and
    [add_ai_message] put in the history. *)
Definition conversational (msg : message) : Prop :=
  match msg with
  | HumanMessage _ | AIMessage _ => True
  | _ => False
  end.

(** The message [load_memory] rebuilds from a saved one. *)
Definition from_saved (msg_data : saved_message) : message :=
  if String.eqb (role msg_data) "human"
  then HumanMessage (saved_content msg_data)
  else AIMessage (saved_content msg_data).

(** [generate_content] returned. *)
Definition replied (reply : exn + string) : bool :=
  match reply with
  | inr _ => true
  | inl _ => false
  end.

(** *** Sample surroundings, for the worked examples *)

Definition sample_process : process_env :=
  {| env_groq_api_key := None; gemini_sdk := true;
     gemini_configure_ok := true; groq_client := inr tt |}.

(** A day on which every service answers; the critic answers [critic]. *)
Definition sample_env (critic : exn + string) : turn_env :=
  {| now := "2025-01-01T10:00:00";
     gemini_reply := inr "La fisica studia la materia e l'energia.";
     groq_reply := inr "Ecco la risposta.";
     critic_reply := critic;
     disk := WriteOk |}.

(** A new user with both keys, and nothing on disk. *)
Definition sample_world : world :=
  {| self := blank "u1" "gsk-1"
               (GeminiSpecialist.init true true (Some "gem-1"));
     files := ∅;
     calls := [] |}.

(** The critic answering with a fenced dictionary of the given overall
    score and no criteria. *)
Definition scored (score : string) : exn + string :=
  inr (List.fold_right String.append EmptyString
         ["```json"; nl; "{"; Json.quoted "overall_score"; ": "; score; ", ";
          Json.quoted "scores"; ": {}}"; nl; "```"]).

(** A store with the user [u1], whose orchestrator is cached with the key
    [gsk-old]. *)
Definition sample_server : server :=
  {| users := {[ "u1" := {| doc_groq := Some (encrypt "gsk-old"); doc_gemini := None;
                            api_keys_configured := true |} ]};
     instances := [("u1", blank "u1" "gsk-old" (GeminiSpecialist.init true true None))];
     memory_files := ∅;
     process := sample_process |}.

Definition sample_request : SaveAPIKeysRequest :=
  {| req_user_id := "u1"; req_groq_api_key := Some "gsk-new"; req_gemini_api_key := None |}.

(** The critic answering with the overall score 8 and the given criteria,
    each with the JSON text of its score. *)
Definition criteria (scores : list (string * string)) : exn + string :=
  inr (List.fold_right String.append EmptyString
         ["{"; Json.quoted "overall_score"; ": 8, "; Json.quoted "scores"; ": {";
          String.concat ", "
            (map (fun item => String.append (Json.quoted (fst item))
                                (String.append ": " (snd item))) scores);
          "}}"]).

(** Six criteria that all score 9. *)
Definition six_nines : list (string * string) :=
  [("rilevanza", "9"); ("chiarezza", "9"); ("completezza", "9");
   ("accuratezza", "9"); ("utilita", "9"); ("originalita", "9")].

(** The same six, followed by a criterion scored in words. *)
Definition six_nines_and_a_word : list (string * string) :=
  six_nines ++ [("tono", Json.quoted "alto")].

(** Four turns that run no critique. *)
Definition quiet_turns : list turn :=
  [("Uno", false, sample_env (scored "8"));
   ("Due", false, sample_env (scored "8"));
   ("Tre", false, sample_env (scored "8"));
   ("Quattro", false, sample_env (scored "8"))].

(** An orchestrator in the middle of a long conversation: 52 messages,
    "Domanda A", "Risposta A", ..., "Domanda Z", "Risposta Z". *)
Definition talkative : MavkusAI :=
  let letter (n : nat) : string := String (ascii_of_nat (64 + n)) EmptyString in
  with_history
    (concat (map (fun n => [HumanMessage (String.append "Domanda " (letter n));
                            AIMessage (String.append "Risposta " (letter n))])
               (seq 1 26)))
    (self sample_world).

(** The file of [u1] as an earlier process left it, unreadable. *)
Definition stale_files : gmap string file :=
  {[ memory_path "u1" := Corrupt ]}.

(** A critic that answers with the criteria in a list, not in a dictionary. *)
Definition listed_scores : exn + string :=
  inr (List.fold_right String.append EmptyString
         ["{"; Json.quoted "overall_score"; ": 8, ";
          Json.quoted "scores"; ": [8, 7, 9, 8, 8]}"]).

(** * Properties *)

(** ** Strings and lists *)

Lemma prefix_append (p s : string) :
  String.prefix p s = true <-> exists post, s = String.append p post.
Proof.
  revert s. induction p as [|c p IH]; intros s.
  - split; [intros _; exists s; reflexivity | intros _; destruct s; reflexivity].
  - destruct s as [|d s]; simpl.
    + split; [discriminate | intros [post H]; discriminate].
    + destruct (Ascii.ascii_dec c d) as [->|Hne].
      * rewrite IH. split; intros [post H]; exists post.
        -- now rewrite H.
        -- now inversion H.
      * split; [discriminate | intros [post H]; inversion H; congruence].
Qed.

Lemma str_in_nil (sub : string) :
  Py.str_in sub EmptyString = String.prefix sub EmptyString.
Proof. simpl. apply orb_false_r. Qed.

Lemma str_in_cons (sub : string) (c : ascii) (s : string) :
  Py.str_in sub (String c s) = String.prefix sub (String c s) || Py.str_in sub s.
Proof. reflexivity. Qed.

Lemma str_in_occurs (sub s : string) :
  Py.str_in sub s = true <-> Py.occurs sub s.
Proof.
  unfold Py.occurs. induction s as [|c s IH].
  - rewrite str_in_nil, prefix_append. split.
    + intros [post H]. exists EmptyString, post. exact H.
    + intros [[|d pre] [post H]]; [exists post; exact H | discriminate].
  - rewrite str_in_cons, orb_true_iff, prefix_append, IH. split.
    + intros [[post H] | [pre [post H]]].
      * exists EmptyString, post. exact H.
      * exists (String c pre), post. simpl. now rewrite H.
    + intros [[|d pre] [post H]].
      * left. exists post. exact H.
      * right. exists pre, post. simpl in H. now inversion H.
Qed.

Lemma list_sum_ones {A : Type} (l : list A) :
  list_sum (map (fun _ => 1%nat) l) = length l.
Proof. induction l; simpl; congruence. Qed.

(** In a list without repetition, at least two elements pass a test exactly
    when two different elements pass it. *)
Lemma two_pass {A : Type} (f : A -> bool) (l : list A) :
  List.NoDup l ->
  (2 <= length (List.filter f l))%nat <->
  exists x y, x <> y /\ In x l /\ In y l /\ f x = true /\ f y = true.
Proof.
  intros Hnd. split.
  - intros Hlen.
    pose proof (List.NoDup_filter f Hnd) as Hf.
    destruct (List.filter f l) as [|x [|y rest]] eqn:E; simpl in Hlen; try lia.
    assert (Hx : In x (List.filter f l)) by (rewrite E; now left).
    assert (Hy : In y (List.filter f l)) by (rewrite E; right; now left).
    apply filter_In in Hx, Hy. exists x, y.
    inversion Hf as [|? ? Hnotin _]; subst.
    repeat split; try tauto.
    intros ->. apply Hnotin. now left.
  - intros (x & y & Hne & Hx & Hy & Hfx & Hfy).
    assert (Hx' : In x (List.filter f l)) by (apply filter_In; tauto).
    assert (Hy' : In y (List.filter f l)) by (apply filter_In; tauto).
    destruct (List.filter f l) as [|a [|b rest]]; simpl in *; try lia; try tauto.
    destruct Hx' as [<-|[]], Hy' as [<-|[]]. contradiction.
Qed.

Lemma science_keywords_distinct : List.NoDup science_keywords.
Proof.
  apply NoDup_ListNoDup.
  apply (bool_decide_unpack (NoDup science_keywords)). vm_compute. exact I.
Qed.

Lemma existsb_In {A : Type} (f : A -> bool) (l : list A) :
  existsb f l = true <-> exists x, In x l /\ f x = true.
Proof. apply existsb_exists. Qed.

Lemma strong_signals_keywords (kw : string) :
  In kw strong_signals -> In kw science_keywords.
Proof. clear lower json_loads. simpl. intuition. Qed.

(** ** Routing *)

(** C1. [should_route_to_gemini] answers true exactly when two different
    keywords of the science set occur in the lowercased message or a strong
    signal (fisica, chimica, biologia) occurs in it; a message in which
    exactly one keyword occurs, not a strong signal, is not routed. *)
Theorem route_iff_two_keywords_or_strong_signal (question : string) :
  (should_route_to_gemini question = true <->
     (exists k1 k2, k1 <> k2 /\ In k1 science_keywords /\ In k2 science_keywords /\
                    Py.occurs k1 (lower question) /\ Py.occurs k2 (lower question))
     \/ (exists k, In k strong_signals /\ Py.occurs k (lower question)))
  /\ (forall kw,
        In kw science_keywords -> ~ In kw strong_signals ->
        Py.occurs kw (lower question) ->
        (forall kw', In kw' science_keywords -> Py.occurs kw' (lower question) -> kw' = kw) ->
        should_route_to_gemini question = false).
Proof.
  clear json_loads.
  assert (Hiff : should_route_to_gemini question = true <->
     (exists k1 k2, k1 <> k2 /\ In k1 science_keywords /\ In k2 science_keywords /\
                    Py.occurs k1 (lower question) /\ Py.occurs k2 (lower question))
     \/ (exists k, In k strong_signals /\ Py.occurs k (lower question))).
  { unfold should_route_to_gemini. cbv zeta.
    rewrite orb_true_iff, list_sum_ones, Nat.leb_le, existsb_In.
    rewrite (two_pass _ _ science_keywords_distinct).
    split; (intros [H|H]; [left|right]).
    - destruct H as (x & y & Hne & Hx & Hy & Hfx & Hfy).
      exists x, y. rewrite <- !str_in_occurs. tauto.
    - destruct H as (x & Hx & Hfx). exists x. rewrite <- str_in_occurs. tauto.
    - destruct H as (x & y & Hne & Hx & Hy & Hfx & Hfy).
      exists x, y. rewrite !str_in_occurs. tauto.
    - destruct H as (x & Hx & Hfx). exists x. rewrite str_in_occurs. tauto. }
  split; [exact Hiff|].
  intros kw Hkw Hweak Hocc Honly.
  destruct (should_route_to_gemini question) eqn:E; [|reflexivity].
  exfalso. destruct (proj1 Hiff eq_refl) as [(k1 & k2 & Hne & H1 & H2 & O1 & O2) | (k & Hk & Ok)].
  - apply Hne. rewrite (Honly k1 H1 O1), (Honly k2 H2 O2). reflexivity.
  - apply Hweak. rewrite <- (Honly k (strong_signals_keywords k Hk) Ok). exact Hk.
Qed.

Lemma chat_phases (user_message : string) (enable_critique : bool) (env : turn_env) (w : world) :
  chat user_message enable_critique env w =
  (Run.modify (begin_turn user_message) ;;
   gemini_response <- consult_phase user_message env ;;
   Run.modify (generate_phase gemini_response env) ;;
   critique <- critique_phase user_message (response_text env) enable_critique env ;;
   persist_phase env ;;
   Run.ret (response_text env,
            {| md_routed_to_gemini := should_route_to_gemini user_message;
               md_gemini_used := match gemini_response with
                                 | Some r => GeminiSpecialist.success r
                                 | None => false
                                 end;
               md_gemini_response := gemini_response;
               md_critique := critique |})) w.
Proof.
  unfold chat, generate_phase, response_text.
  destruct (groq_reply env) as [e|content]; reflexivity.
Qed.
(** ** The phases of a turn *)

Lemma consult_phase_frame (user_message : string) (env : turn_env) (w : world) :
  exists g w', consult_phase user_message env w = (inr g, w') /\ keeps_conversation w w'.
Proof.
  unfold consult_phase, keeps_conversation, Run.bind at 1, Run.get.
  destruct (should_route_to_gemini user_message && _).
  - unfold Run.zoom, GeminiSpecialist.consult, Run.bind, Run.get, Run.modify,
      Run.try_except, Run.of_sum, Run.ret, Run.raise.
    simpl.
    destruct (GeminiSpecialist.available (gemini (self w))),
      (GeminiSpecialist.model (gemini (self w))), (gemini_reply env);
      simpl; eauto 12.
  - simpl. eauto 12.
Qed.

Lemma critique_response_total (user_message ai_response : string) (env : turn_env) (w : world) :
  _critique_response user_message ai_response env w =
  (inr (critique_of env), log_call (CriticCall user_message ai_response) w).
Proof.
  unfold _critique_response, critique_of, Run.try_except, Run.bind, Run.modify, Run.of_sum,
    Run.ret, Run.raise.
  destruct (critic_reply env) as [e|content]; [reflexivity|].
  destruct (extract_json content) as [e|json_str]; [reflexivity|].
  destruct (json_loads json_str); reflexivity.
Qed.

Lemma save_memory_total (env : turn_env) (w : world) :
  exists w', save_memory env w = (inr tt, w') /\
    self w' = self w /\
    calls w' = calls w ++ [DiskWrite (save_file (self w))] /\
    files w' =
      match disk env with
      | WriteOk =>
          <[save_file (self w) :=
              Blob {| sd_user_id := user_id (self w);
                      sd_user_profile := user_profile (self w);
                      sd_learned_patterns := learned_patterns (self w);
                      sd_routing_stats := routing_stats (self w);
                      sd_gemini_stats := GeminiSpecialist.get_stats (gemini (self w));
                      sd_chat_history :=
                        map (to_saved (now env)) (Py.last_n 50 (chat_history (self w)));
                      sd_last_saved := now env |}]> (files w)
      | OpenFails => files w
      | WriteBreaks => <[save_file (self w) := Corrupt]> (files w)
      end.
Proof.
  unfold save_memory, Run.try_except, Run.bind, Run.get, Run.modify, Run.raise, Run.ret.
  destruct (disk env); simpl; eauto.
Qed.

Lemma persist_phase_total (env : turn_env) (w : world) :
  exists w', persist_phase env w = (inr tt, w') /\ self w' = self w /\
    (calls w' = calls w \/ calls w' = calls w ++ [DiskWrite (save_file (self w))]).
Proof.
  unfold persist_phase, Run.bind at 1, Run.get.
  destruct (_ =? 0)%Z.
  - destruct (save_memory_total env w) as (w' & H & Hs & Hc & _). eauto.
  - unfold Run.ret. eauto.
Qed.
(** ** Learning from a critique *)

Lemma areas_grow_refl (p : UserProfile) : areas_grow p p.
Proof.
  unfold areas_grow. repeat split; try reflexivity; exists []; symmetry; apply app_nil_r.
Qed.

Lemma areas_grow_trans (p q r : UserProfile) :
  areas_grow p q -> areas_grow q r -> areas_grow p r.
Proof.
  unfold areas_grow.
  intros (H1 & H2 & H3 & H4 & H5 & [sa Hs] & [wa Hw])
         (G1 & G2 & G3 & G4 & G5 & [sa' Hs'] & [wa' Hw']).
  repeat split; try congruence.
  - exists (sa ++ sa'). rewrite Hs', Hs. symmetry. apply app_assoc.
  - exists (wa ++ wa'). rewrite Hw', Hw. symmetry. apply app_assoc.
Qed.

Lemma for_each_cons {St A : Type} (x : A) (l : list A) (body : A -> Run.M St unit) (s : St) :
  Run.for_each (x :: l) body s =
  match body x s with
  | (inr _, s') => Run.for_each l body s'
  | (inl e, s') => (inl e, s')
  end.
Proof. reflexivity. Qed.

Lemma note_area_grows (item : string * json) (p : UserProfile) :
  areas_grow p (snd (note_area item p)).
Proof.
  destruct item as [area v].
  unfold note_area, numeric, Run.bind, Run.get, Run.modify, Run.ret, Run.raise.
  destruct (Json.as_number v) as [value|]; [|apply areas_grow_refl].
  destruct (Qle_bool 8 value && _); [|destruct (Qle_bool value 5 && _)]; simpl.
  - unfold areas_grow; simpl. repeat split; eauto. exists []. symmetry. apply app_nil_r.
  - unfold areas_grow; simpl. repeat split; eauto. exists []. symmetry. apply app_nil_r.
  - apply areas_grow_refl.
Qed.

Lemma for_each_note_area_grows (items : list (string * json)) (p : UserProfile) :
  areas_grow p (snd (Run.for_each items note_area p)).
Proof.
  revert p. induction items as [|item items IH]; intros p.
  - apply areas_grow_refl.
  - rewrite for_each_cons. pose proof (note_area_grows item p) as H.
    destruct (note_area item p) as [[e|[]] p1]; simpl in H; [exact H|].
    eapply areas_grow_trans; [exact H|apply IH].
Qed.

Lemma for_each_note_area_returns (items : list (string * json)) (p : UserProfile) :
  Forall (fun item => is_Some (Json.as_number (snd item))) items ->
  fst (Run.for_each items note_area p) = inr tt.
Proof.
  intros Hall. revert p. induction Hall as [|[area v] items [value Hv] _ IH]; intros p.
  - reflexivity.
  - rewrite for_each_cons. simpl in Hv.
    assert (Hret : fst (note_area (area, v) p) = inr tt).
    { unfold note_area, numeric, Run.bind, Run.get, Run.modify, Run.ret. rewrite Hv.
      destruct (Qle_bool 8 value && _); [|destruct (Qle_bool value 5 && _)]; reflexivity. }
    destruct (note_area (area, v) p) as [[e|[]] p1]; simpl in Hret; [discriminate|].
    apply IH.
Qed.
(** What [_learn_from_critique] leaves behind: the message-derived fields
    are never touched, and when it returns, the mean, the trend and the two
    area lists are the updated and capped ones. *)
Lemma learn_outcome (critique : json) (p : UserProfile) :
  forall r p', _learn_from_critique critique p = (r, p') ->
  style p' = style p /\
  topics_of_interest p' = topics_of_interest p /\
  conversation_count p' = conversation_count p /\
  (r = inr tt ->
   exists score strong_added weak_added,
     overall_score critique = Some score /\
     conversation_count p <> 0%Z /\
     avg_response_score (quality_metrics p') =
       ((avg_response_score (quality_metrics p) * inject_Z (conversation_count p - 1) + score)
        / inject_Z (conversation_count p))%Q /\
     improvement_trend (quality_metrics p') =
       cap 20 (improvement_trend (quality_metrics p) ++ [score]) /\
     strong_areas (quality_metrics p') =
       cap 5 (strong_areas (quality_metrics p) ++ strong_added) /\
     weak_areas (quality_metrics p') =
       cap 5 (weak_areas (quality_metrics p) ++ weak_added)).
Proof.
  intros r p'.
  destruct critique as [| | | | |items];
    try (intros [= <- <-]; repeat split; discriminate).
  unfold _learn_from_critique, overall_score, dict_get.
  unfold Run.bind at 1, Run.ret at 1. unfold Run.bind at 1, Run.get at 1.
  unfold Run.bind at 1, numeric at 1.
  destruct (Json.as_number (default (JNum 7) (Json.get "overall_score" items))) as [score|];
    [|intros [= <- <-]; repeat split; discriminate].
  unfold Run.ret at 1. unfold Run.bind at 1.
  destruct (conversation_count p =? 0)%Z eqn:Hcount;
    [intros [= <- <-]; repeat split; discriminate|].
  apply Z.eqb_neq in Hcount.
  unfold Run.ret at 1. unfold Run.bind at 1, Run.modify at 1.
  unfold Run.bind at 1, Run.modify at 1. unfold Run.bind at 1, Run.modify at 1.
  unfold Run.bind at 1, Run.ret at 1.
  destruct (default (JObj []) (Json.get "scores" items)) as [| | | | |scores];
    try (unfold Run.bind at 1, Run.raise; intros [= <- <-]; simpl; repeat split; discriminate).
  unfold Run.bind at 1, Run.ret at 1. unfold Run.bind at 1.
  match goal with |- context [Run.for_each scores note_area ?q] =>
    pose proof (for_each_note_area_grows scores q) as Hgrow;
    destruct (Run.for_each scores note_area q) as [[e|[]] p1]
  end; simpl in Hgrow;
    destruct Hgrow as (G1 & G2 & G3 & G4 & G5 & [sa Hs] & [wa Hw]); simpl in *.
  - intros [= <- <-]. repeat split; try assumption. discriminate.
  - unfold Run.bind, Run.modify. intros [= <- <-]. simpl.
    repeat split; try assumption.
    intros _. exists score, sa, wa.
    rewrite G4, G5, Hs, Hw. repeat split; try reflexivity. assumption.
Qed.
Lemma learn_returns (critique : json) (p : UserProfile) :
  well_typed_critique critique ->
  conversation_count p <> 0%Z ->
  fst (_learn_from_critique critique p) = inr tt.
Proof.
  intros Hwt Hcount.
  destruct critique as [| | | | |items]; try contradiction.
  destruct Hwt as [(score & Hscore & _) Hscores].
  unfold _learn_from_critique, dict_get.
  unfold Run.bind at 1, Run.ret at 1. unfold Run.bind at 1, Run.get at 1.
  unfold Run.bind at 1, numeric at 1. rewrite Hscore.
  unfold Run.ret at 1. unfold Run.bind at 1.
  apply Z.eqb_neq in Hcount. rewrite Hcount.
  unfold Run.ret at 1. unfold Run.bind at 1, Run.modify at 1.
  unfold Run.bind at 1, Run.modify at 1. unfold Run.bind at 1, Run.modify at 1.
  unfold Run.bind at 1, Run.ret at 1.
  destruct (default (JObj []) (Json.get "scores" items)) as [| | | | |scores];
    try contradiction.
  unfold Run.bind at 1, Run.ret at 1. unfold Run.bind at 1.
  match goal with |- context [Run.for_each scores note_area ?q] =>
    pose proof (for_each_note_area_returns scores q Hscores) as Hret;
    destruct (Run.for_each scores note_area q) as [[e|[]] p1]
  end; simpl in Hret; [discriminate|].
  reflexivity.
Qed.

(** ** Capacities *)

Lemma last_n_length {A : Type} (n : nat) (l : list A) :
  length (Py.last_n n l) = Nat.min n (length l).
Proof. unfold Py.last_n. rewrite length_skipn. lia. Qed.

Lemma last_n_all {A : Type} (n : nat) (l : list A) :
  (length l <= n)%nat -> Py.last_n n l = l.
Proof. intros H. unfold Py.last_n. replace (length l - n)%nat with 0%nat by lia. reflexivity. Qed.

Lemma last_n_In {A : Type} (n : nat) (l : list A) (x : A) :
  In x (Py.last_n n l) -> In x l.
Proof.
  unfold Py.last_n. intros H.
  rewrite <- (firstn_skipn (length l - n) l). apply in_or_app. right. exact H.
Qed.

(** The last elements of a list that ends with [x] end with [x]. *)
Lemma last_n_ends {A : Type} (k : nat) (l : list A) (x : A) :
  exists before, Py.last_n (S k) (l ++ [x]) = before ++ [x].
Proof.
  exists (skipn (length l - k) l). unfold Py.last_n.
  rewrite length_app. simpl length.
  replace (length l + 1 - S k)%nat with (length l - k)%nat by lia.
  rewrite List.skipn_app.
  replace (length l - k - length l)%nat with 0%nat by lia. reflexivity.
Qed.

Lemma cap_length {A : Type} (n : nat) (l : list A) : (length (cap n l) <= n)%nat.
Proof.
  unfold cap. destruct (n <? length l)%nat eqn:E.
  - rewrite last_n_length. lia.
  - apply Nat.ltb_ge in E. exact E.
Qed.

(** [l[-n:]] is the last [n] elements of [l]: a suffix of [l], of length [n]
    or all of [l]. *)
Lemma last_n_last_of {A : Type} (n : nat) (l : list A) :
  last_of n l (Py.last_n n l).
Proof.
  exists (firstn (length l - n) l). unfold Py.last_n.
  rewrite firstn_skipn, length_skipn. split; [reflexivity|lia].
Qed.

Lemma cap_last_of {A : Type} (n : nat) (l : list A) :
  last_of n l (cap n l).
Proof.
  unfold cap. destruct (n <? length l)%nat eqn:E.
  - apply last_n_last_of.
  - apply Nat.ltb_ge in E. exists []. split; [reflexivity|lia].
Qed.

(** [last_of] determines the part. *)
Lemma last_of_unique {A : Type} (n : nat) (l part part' : list A) :
  last_of n l part -> last_of n l part' -> part = part'.
Proof.
  intros (d & Hl & Hlen) (d' & Hl' & Hlen').
  rewrite Hl' in Hl. apply app_inj_2 in Hl; [symmetry; apply Hl|congruence].
Qed.

Lemma last_of_all {A : Type} (n : nat) (l part : list A) :
  (length l <= n)%nat -> last_of n l part -> part = l.
Proof.
  intros Hlen Hpart. apply (last_of_unique n l); [exact Hpart|].
  exists []. split; [reflexivity|lia].
Qed.

Lemma mem_In (x : string) (l : list string) : mem x l = true <-> In x l.
Proof.
  unfold mem. rewrite existsb_exists. split.
  - intros (y & Hy & Heq). apply String.eqb_eq in Heq. subst. exact Hy.
  - intros H. exists x. split; [exact H|apply String.eqb_refl].
Qed.

Lemma mem_snoc_other (x y : string) (l : list string) :
  x <> y -> mem x (l ++ [y]) = mem x l.
Proof.
  intros Hne. unfold mem. rewrite existsb_app. simpl.
  apply String.eqb_neq in Hne. rewrite Hne. rewrite !orb_false_r. reflexivity.
Qed.

(** Over keywords without repetition, the loop of [analyze_user_message]
    appends those that occur in the message and were not recorded. *)
Lemma note_interest_adds (message_lower : string) (keywords : list string) :
  List.NoDup keywords ->
  forall topics,
    fold_left (note_interest message_lower) keywords topics =
    topics ++ List.filter (fun kw => Py.str_in kw message_lower && negb (mem kw topics))
                keywords.
Proof.
  clear lower json_loads.
  induction 1 as [|kw keywords Hnotin _ IH]; intros topics.
  - simpl. symmetry. apply app_nil_r.
  - cbn [fold_left List.filter]. unfold note_interest at 2.
    destruct (Py.str_in kw message_lower && negb (mem kw topics)).
    + rewrite IH, <- app_assoc. cbn [app]. do 2 f_equal.
      apply List.filter_ext_in. intros k Hk.
      rewrite mem_snoc_other; [reflexivity|]. intros ->. contradiction.
    + apply IH.
Qed.

Lemma interest_keywords_distinct :
  List.NoDup (interest_science_keywords ++ interest_coding_keywords).
Proof.
  apply NoDup_ListNoDup.
  apply (bool_decide_unpack (NoDup (interest_science_keywords ++ interest_coding_keywords))).
  vm_compute. exact I.
Qed.

(** [analyze_user_message] touches the style and the topics only, and the
    topics by one capped append of the new interests. *)
Lemma analyze_outcome (message : string) (p : UserProfile) :
  conversation_count (analyze_user_message message p) = conversation_count p /\
  quality_metrics (analyze_user_message message p) = quality_metrics p /\
  topics_of_interest (analyze_user_message message p) =
    cap 10 (topics_of_interest p ++ new_interests (lower message) (topics_of_interest p)).
Proof.
  unfold analyze_user_message, new_interests. cbv zeta.
  rewrite <- (note_interest_adds (lower message) _ interest_keywords_distinct).
  match goal with |- context [if ?c then _ else _] => destruct c eqn:E end;
    simpl in *; repeat split; unfold cap; rewrite E; reflexivity.
Qed.
(** ** The whole turn *)

(** What a call of [chat] does, in terms of the profile update
    [_learn_from_critique] makes on the profile of the turn. *)
Lemma chat_outcome (user_message : string) (enable_critique : bool) (env : turn_env) (w : world) :
  exists g w1,
    consult_phase user_message env (begin_turn user_message w) = (inr g, w1) /\
    let p0 := add_conversation (analyze_user_message user_message (user_profile (self w))) in
    let learnt :=
      if enable_critique then _learn_from_critique (critique_of env) p0 else (inr tt, p0) in
    chat_history (self (snd (chat user_message enable_critique env w))) =
      chat_history (self w) ++ [HumanMessage user_message; AIMessage (response_text env)] /\
    user_profile (self (snd (chat user_message enable_critique env w))) = snd learnt /\
    gemini_success_rate (routing_stats (self (snd (chat user_message enable_critique env w)))) =
      gemini_success_rate (routing_stats (self w)) /\
    (exists rest,
       calls (snd (chat user_message enable_critique env w)) =
         calls w
         ++ GroqCall (system_messages g w1
                      ++ Py.last_n 10 (chat_history (self w) ++ [HumanMessage user_message]))
            :: rest /\
       Forall not_generalist rest) /\
    fst (chat user_message enable_critique env w) =
      match fst learnt with
      | inl e => inl e
      | inr _ =>
          inr (response_text env,
               {| md_routed_to_gemini := should_route_to_gemini user_message;
                  md_gemini_used := match g with
                                    | Some r => GeminiSpecialist.success r
                                    | None => false
                                    end;
                  md_gemini_response := g;
                  md_critique := if enable_critique then critique_of env else JObj [] |})
      end.
Proof.
  destruct (consult_phase_frame user_message env (begin_turn user_message w))
    as (g & w1 & Hconsult & Hh & Hp & Hr & Hsf & Hf & Hc).
  exists g, w1. split; [exact Hconsult|]. cbv zeta.
  destruct (chat user_message enable_critique env w) as [r w'] eqn:Hchat. cbn [fst snd].
  rewrite chat_phases in Hchat.
  unfold Run.bind at 1, Run.modify at 1 in Hchat. unfold Run.bind at 1 in Hchat.
  rewrite Hconsult in Hchat.
  unfold Run.bind at 1, Run.modify at 1 in Hchat.
  set (w2 := generate_phase g env w1) in Hchat.
  assert (Hh2 : chat_history (self w2) =
                chat_history (self w) ++ [HumanMessage user_message; AIMessage (response_text env)]).
  { unfold w2, generate_phase. simpl. rewrite Hh. simpl. rewrite <- app_assoc. reflexivity. }
  assert (Hp2 : user_profile (self w2) =
                add_conversation (analyze_user_message user_message (user_profile (self w)))).
  { unfold w2, generate_phase. simpl. rewrite Hp. reflexivity. }
  assert (Hr2 : gemini_success_rate (routing_stats (self w2)) =
                gemini_success_rate (routing_stats (self w))).
  { unfold w2, generate_phase. simpl. rewrite Hr. reflexivity. }
  assert (Hc2 : calls w2 =
                calls w ++ [GroqCall (system_messages g w1
                  ++ Py.last_n 10 (chat_history (self w) ++ [HumanMessage user_message]))]).
  { unfold w2, generate_phase. simpl. rewrite Hh, Hc. reflexivity. }
  clearbody w2. unfold critique_phase in Hchat. destruct enable_critique.
  - unfold Run.bind at 1 2 in Hchat. rewrite critique_response_total in Hchat.
    unfold Run.bind at 1, Run.zoom in Hchat. cbn [self log_call user_profile] in Hchat.
    rewrite Hp2 in Hchat.
    destruct (_learn_from_critique (critique_of env) _) as [[e|[]] p1].
    + injection Hchat as <- <-. simpl. rewrite Hh2, Hr2, Hc2, <- app_assoc.
      repeat split; try reflexivity.
      eexists. split; [reflexivity|]. repeat constructor.
    + unfold Run.ret at 1 in Hchat. unfold Run.bind at 1 in Hchat.
      match type of Hchat with context [persist_phase env ?w3] =>
        destruct (persist_phase_total env w3) as (w4 & Hpersist & Hself & Hcalls);
        rewrite Hpersist in Hchat
      end.
      unfold Run.ret in Hchat. injection Hchat as <- <-. rewrite Hself. simpl.
      rewrite Hh2, Hr2. repeat split; try reflexivity.
      destruct Hcalls as [-> | ->]; simpl; rewrite Hc2, <- ?app_assoc;
        (eexists; split; [reflexivity|]; repeat constructor).
  - unfold Run.bind at 1, Run.ret at 1 in Hchat. unfold Run.bind at 1 in Hchat.
    destruct (persist_phase_total env w2) as (w4 & Hpersist & Hself & Hcalls).
    rewrite Hpersist in Hchat. unfold Run.ret in Hchat. injection Hchat as <- <-.
    rewrite Hself. cbn [fst snd].
    repeat split; try assumption.
    destruct Hcalls as [-> | ->]; rewrite Hc2, <- ?app_assoc;
      (eexists; split; [reflexivity|]; repeat constructor).
Qed.
Lemma system_messages_are_system (g : option GeminiSpecialist.answer_t) (w : world) :
  Forall is_system (system_messages g w).
Proof.
  unfold system_messages. destruct g as [r|]; [destruct (GeminiSpecialist.success r)|];
    repeat constructor.
Qed.

(** C10. Whatever a call of [chat] meets, it leaves the history it found
    with two more messages at the end, the user message and then the
    assistant message (the reply of the generalist, or the error text when
    generation failed).  It calls the generalist once, with system messages
    followed by [sent], where [sent] is the last 10 messages of the history
    that ends with the new user message: a suffix of it, of 10 messages or
    the whole of it when it has fewer, so that it ends with the user
    message and holds none older than the tenth from the end.
    [save_memory] leaves the orchestrator as it is, and the dictionary it
    writes holds [written], the last 50 messages of the history: a suffix
    of it, of 50 messages or the whole of it when it has fewer. *)
Theorem chat_appends_user_then_assistant
    (user_message : string) (enable_critique : bool) (env : turn_env) (w : world) :
  chat_history (self (snd (chat user_message enable_critique env w))) =
    chat_history (self w) ++ [HumanMessage user_message; AIMessage (response_text env)]
  /\ ((exists md, fst (chat user_message enable_critique env w) = inr (response_text env, md))
      \/ (exists e, fst (chat user_message enable_critique env w) = inl e))
  /\ (exists system sent rest,
        Forall is_system system /\ Forall not_generalist rest /\
        calls (snd (chat user_message enable_critique env w)) =
          calls w ++ GroqCall (system ++ sent) :: rest /\
        last_of 10 (chat_history (self w) ++ [HumanMessage user_message]) sent /\
        (length sent <= 10)%nat /\
        (exists before, sent = before ++ [HumanMessage user_message]) /\
        ((length (chat_history (self w)) < 10)%nat ->
         sent = chat_history (self w) ++ [HumanMessage user_message]))
  /\ self (snd (save_memory env w)) = self w
  /\ (exists written,
        last_of 50 (chat_history (self w)) written /\
        (length written <= 50)%nat /\
        ((length (chat_history (self w)) <= 50)%nat -> written = chat_history (self w)) /\
        files (snd (save_memory env w)) !! save_file (self w) =
          match disk env with
          | WriteOk =>
              Some (Blob {| sd_user_id := user_id (self w);
                            sd_user_profile := user_profile (self w);
                            sd_learned_patterns := learned_patterns (self w);
                            sd_routing_stats := routing_stats (self w);
                            sd_gemini_stats := GeminiSpecialist.get_stats (gemini (self w));
                            sd_chat_history := map (to_saved (now env)) written;
                            sd_last_saved := now env |})
          | OpenFails => files w !! save_file (self w)
          | WriteBreaks => Some Corrupt
          end).
Proof.
  destruct (chat_outcome user_message enable_critique env w)
    as (g & w1 & _ & Hh & _ & _ & (rest & Hcalls & Hrest) & Hres).
  split; [exact Hh|]. split.
  { rewrite Hres. clear Hres.
    destruct (fst (if enable_critique then _ else _)) as [e|[]];
      [right; eexists; reflexivity|left; eexists; reflexivity]. }
  split.
  { exists (system_messages g w1),
      (Py.last_n 10 (chat_history (self w) ++ [HumanMessage user_message])), rest.
    split; [apply system_messages_are_system|]. split; [assumption|].
    split; [assumption|]. split; [apply last_n_last_of|].
    split; [rewrite last_n_length; lia|].
    split; [apply last_n_ends|].
    intros Hlen. apply last_n_all. rewrite length_app. simpl. lia. }
  destruct (save_memory_total env w) as (w' & Hsave & Hself & _ & Hfiles).
  rewrite Hsave. cbn [snd]. split; [exact Hself|].
  exists (Py.last_n 50 (chat_history (self w))).
  split; [apply last_n_last_of|]. split; [rewrite last_n_length; lia|].
  split; [apply last_n_all|].
  rewrite Hfiles. destruct (disk env); [apply lookup_insert_eq|reflexivity|apply lookup_insert_eq].
Qed.

(** ** The critique fallback *)

(** C7. When the critic call fails, or its answer cannot be decoded once the
    code fence is stripped, [_critique_response] returns the fixed
    dictionary, whose five criteria all score 7 and whose overall score is
    7; the turn then returns with that critique, and the mean has been
    updated with the score 7 at the count of the turn. *)
Theorem unavailable_critique_falls_back_to_seven
    (user_message ai_response : string) (env : turn_env) (w : world) :
  critique_unavailable env ->
  (0 <= conversation_count (user_profile (self w)))%Z ->
  fst (_critique_response user_message ai_response env w) = inr fallback_critique
  /\ criterion_scores fallback_critique =
       [("rilevanza", JNum 7); ("chiarezza", JNum 7); ("completezza", JNum 7);
        ("accuratezza", JNum 7); ("utilita", JNum 7)]
  /\ overall_score fallback_critique = Some 7%Q
  /\ (exists md,
        fst (chat user_message true env w) = inr (response_text env, md) /\
        md_critique md = fallback_critique)
  /\ let n := (conversation_count (user_profile (self w)) + 1)%Z in
     let p' := user_profile (self (snd (chat user_message true env w))) in
     conversation_count p' = n /\
     avg_response_score (quality_metrics p') =
       ((avg_response_score (quality_metrics (user_profile (self w))) * inject_Z (n - 1) + 7)
        / inject_Z n)%Q.
Proof.
  intros Hun Hcount.
  assert (Hcrit : critique_of env = fallback_critique).
  { unfold critique_unavailable in Hun. unfold critique_of.
    destruct (critic_reply env) as [e|content]; [reflexivity|].
    destruct (extract_json content) as [e|json_str]; [reflexivity|].
    rewrite Hun. reflexivity. }
  split; [rewrite critique_response_total, Hcrit; reflexivity|].
  split; [reflexivity|]. split; [reflexivity|].
  destruct (chat_outcome user_message true env w)
    as (g & w1 & _ & _ & Hp & _ & _ & Hres).
  cbv zeta in Hp, Hres. rewrite Hcrit in Hp, Hres.
  set (p0 := add_conversation (analyze_user_message user_message (user_profile (self w)))) in *.
  assert (Hn : conversation_count p0 = (conversation_count (user_profile (self w)) + 1)%Z).
  { unfold p0. simpl. f_equal. apply analyze_outcome. }
  assert (Hret : fst (_learn_from_critique fallback_critique p0) = inr tt).
  { apply learn_returns; [|lia].
    split; [exists 7%Q; split; [reflexivity|vm_compute; discriminate]|].
    repeat constructor; eexists; reflexivity. }
  destruct (_learn_from_critique fallback_critique p0) as [r p1] eqn:Hlearn.
  cbn [fst snd] in *. subst r.
  destruct (learn_outcome _ _ _ _ Hlearn) as (_ & _ & Hc1 & Hmore).
  destruct (Hmore eq_refl) as (score & sa & wa & Hscore & _ & Havg & _).
  injection Hscore as <-.
  split.
  { eexists. split; [exact Hres|reflexivity]. }
  cbv zeta. rewrite Hp. split; [congruence|].
  rewrite Havg, Hn.
  assert (Ha : avg_response_score (quality_metrics p0) =
               avg_response_score (quality_metrics (user_profile (self w)))).
  { unfold p0. simpl. f_equal. apply analyze_outcome. }
  rewrite Ha. reflexivity.
Qed.
(** ** Bounded lists *)

Lemma strong_score_is_not_weak (value : Q) :
  Qle_bool 8 value = true -> Qle_bool value 5 = false.
Proof.
  intros H8. destruct (Qle_bool value 5) eqn:H5; [|reflexivity].
  apply Qle_bool_iff in H8, H5. pose proof (Qle_trans _ _ _ H8 H5) as Hc.
  unfold Qle in Hc. simpl in Hc. lia.
Qed.

Lemma new_strong_areas_snoc (items : list (string * json)) (strong : list string)
    (area : string) :
  ~ In area (map fst items) ->
  new_strong_areas items (strong ++ [area]) = new_strong_areas items strong.
Proof.
  intros Hnot. unfold new_strong_areas. f_equal. apply List.filter_ext_in.
  intros item Hitem. rewrite mem_snoc_other; [reflexivity|].
  intros Heq. apply Hnot. rewrite <- Heq. apply in_map. exact Hitem.
Qed.

Lemma new_weak_areas_snoc (items : list (string * json)) (weak : list string)
    (area : string) :
  ~ In area (map fst items) ->
  new_weak_areas items (weak ++ [area]) = new_weak_areas items weak.
Proof.
  intros Hnot. unfold new_weak_areas. f_equal. apply List.filter_ext_in.
  intros item Hitem. rewrite mem_snoc_other; [reflexivity|].
  intros Heq. apply Hnot. rewrite <- Heq. apply in_map. exact Hitem.
Qed.

(** The loop of [_learn_from_critique] over a dictionary of scores, when it
    runs to its end: the criteria scoring 8 or more that were not listed
    are appended to the strong areas, those scoring 5 or less to the weak
    areas, in the order of the dictionary. *)
Lemma note_area_loop (items : list (string * json)) :
  List.NoDup (map fst items) ->
  forall p p',
    Run.for_each items note_area p = (inr tt, p') ->
    strong_areas (quality_metrics p') =
      strong_areas (quality_metrics p)
      ++ new_strong_areas items (strong_areas (quality_metrics p)) /\
    weak_areas (quality_metrics p') =
      weak_areas (quality_metrics p)
      ++ new_weak_areas items (weak_areas (quality_metrics p)).
Proof.
  clear lower json_loads.
  induction items as [|[area v] items IH]; intros Hnd p p' Hrun.
  - injection Hrun as <-. unfold new_strong_areas, new_weak_areas. simpl.
    rewrite !app_nil_r. split; reflexivity.
  - cbn [map fst] in Hnd. inversion Hnd as [|? ? Hnotin Hnd']; subst.
    rewrite for_each_cons in Hrun.
    destruct (note_area (area, v) p) as [[e|[]] p1] eqn:Hstep; [discriminate|].
    destruct (IH Hnd' p1 p' Hrun) as [Hs Hw]. rewrite Hs, Hw. clear Hs Hw Hrun IH.
    revert Hstep. unfold note_area, numeric, Run.bind, Run.get, Run.modify, Run.ret, Run.raise.
    unfold new_strong_areas at 2, new_weak_areas at 2. cbn [List.filter fst snd].
    destruct (Json.as_number v) as [value|]; [|discriminate].
    destruct (Qle_bool 8 value) eqn:H8.
    + rewrite (strong_score_is_not_weak _ H8). cbn [andb].
      destruct (mem area (strong_areas (quality_metrics p))); cbn [negb];
        intros [= <-]; cbn [quality_metrics set_metrics set_strong strong_areas weak_areas map fst].
      * split; reflexivity.
      * rewrite new_strong_areas_snoc by exact Hnotin.
        rewrite <- app_assoc. split; reflexivity.
    + cbn [andb].
      destruct (Qle_bool value 5 && negb (mem area (weak_areas (quality_metrics p))));
        intros [= <-]; cbn [quality_metrics set_metrics set_weak strong_areas weak_areas map fst].
      * rewrite new_weak_areas_snoc by exact Hnotin.
        rewrite <- app_assoc. split; reflexivity.
      * split; reflexivity.
Qed.

(** When [_learn_from_critique] returns on a critique whose criteria are
    pairwise different (the keys of a dictionary), both area lists are the
    old list with the new areas appended, cut to its last five. *)
Lemma learn_areas (critique : json) (p p' : UserProfile) :
  _learn_from_critique critique p = (inr tt, p') ->
  List.NoDup (map fst (criterion_scores critique)) ->
  strong_areas (quality_metrics p') =
    cap 5 (strong_areas (quality_metrics p)
           ++ new_strong_areas (criterion_scores critique) (strong_areas (quality_metrics p))) /\
  weak_areas (quality_metrics p') =
    cap 5 (weak_areas (quality_metrics p)
           ++ new_weak_areas (criterion_scores critique) (weak_areas (quality_metrics p))).
Proof.
  clear lower json_loads.
  destruct critique as [| | | | |items]; try discriminate.
  unfold _learn_from_critique, criterion_scores, dict_get.
  unfold Run.bind at 1, Run.ret at 1. unfold Run.bind at 1, Run.get at 1.
  unfold Run.bind at 1, numeric at 1.
  destruct (Json.as_number (default (JNum 7) (Json.get "overall_score" items))) as [score|];
    [|discriminate].
  unfold Run.ret at 1. unfold Run.bind at 1.
  destruct (conversation_count p =? 0)%Z; [discriminate|].
  unfold Run.ret at 1. unfold Run.bind at 1, Run.modify at 1.
  unfold Run.bind at 1, Run.modify at 1. unfold Run.bind at 1, Run.modify at 1.
  unfold Run.bind at 1, Run.ret at 1.
  assert (Hscores : forall scores,
            default (JObj []) (Json.get "scores" items) = JObj scores ->
            match Json.get "scores" items with
            | Some (JObj found) => found
            | _ => []
            end = scores).
  { intros scores. destruct (Json.get "scores" items) as [[| | | | |found]|]; simpl; congruence. }
  destruct (default (JObj []) (Json.get "scores" items)) as [| | | | |scores];
    try (unfold Run.bind at 1, Run.raise; discriminate).
  rewrite (Hscores scores eq_refl). clear Hscores.
  unfold Run.bind at 1, Run.ret at 1. unfold Run.bind at 1.
  match goal with |- context [Run.for_each scores note_area ?q] =>
    pose proof (note_area_loop scores) as Hloop; specialize (fun H => Hloop H q);
    destruct (Run.for_each scores note_area q) as [[e|[]] p1]
  end; [discriminate|].
  unfold Run.bind, Run.modify. intros [= <-] Hnd.
  destruct (Hloop Hnd p1 eq_refl) as [Hs Hw].
  cbn [quality_metrics set_metrics set_strong set_weak set_trend set_avg
       strong_areas weak_areas] in *.
  rewrite Hs, Hw. split; reflexivity.
Qed.

(** A turn that returns leaves each bounded list as the old list with the
    new elements appended, cut to its last elements at the capacity: what
    is dropped is dropped from the front. *)
Lemma returning_turn_keeps_capacity (user_message : string) (enable_critique : bool)
    (env : turn_env) (w : world) (r : string * metadata) (w' : world) :
  chat user_message enable_critique env w = (inr r, w') ->
  let p := user_profile (self w) in
  let p' := user_profile (self w') in
  last_of 10 (topics_of_interest p ++ new_interests (lower user_message) (topics_of_interest p))
    (topics_of_interest p') /\
  (length (topics_of_interest p') <= 10)%nat /\
  if enable_critique then
    (exists score,
       overall_score (critique_of env) = Some score /\
       last_of 20 (improvement_trend (quality_metrics p) ++ [score])
         (improvement_trend (quality_metrics p'))) /\
    (length (improvement_trend (quality_metrics p')) <= 20)%nat /\
    (length (strong_areas (quality_metrics p')) <= 5)%nat /\
    (length (weak_areas (quality_metrics p')) <= 5)%nat /\
    (List.NoDup (map fst (criterion_scores (critique_of env))) ->
     last_of 5 (strong_areas (quality_metrics p)
                ++ new_strong_areas (criterion_scores (critique_of env))
                     (strong_areas (quality_metrics p)))
       (strong_areas (quality_metrics p')) /\
     last_of 5 (weak_areas (quality_metrics p)
                ++ new_weak_areas (criterion_scores (critique_of env))
                     (weak_areas (quality_metrics p)))
       (weak_areas (quality_metrics p')))
  else quality_metrics p' = quality_metrics p.
Proof.
  intros Hchat. cbv zeta.
  destruct (chat_outcome user_message enable_critique env w)
    as (g & w1 & _ & _ & Hp & _ & _ & Hres).
  rewrite Hchat in Hp, Hres. cbn [fst snd] in Hp, Hres. cbv zeta in Hp, Hres.
  destruct (analyze_outcome user_message (user_profile (self w))) as (_ & Hq & Htopics).
  set (p0 := add_conversation (analyze_user_message user_message (user_profile (self w)))) in *.
  assert (Hq0 : quality_metrics p0 = quality_metrics (user_profile (self w))) by exact Hq.
  assert (Ht0 : topics_of_interest p0 =
                cap 10 (topics_of_interest (user_profile (self w))
                        ++ new_interests (lower user_message)
                             (topics_of_interest (user_profile (self w)))))
    by exact Htopics.
  destruct enable_critique.
  - destruct (_learn_from_critique (critique_of env) p0) as [rl p1] eqn:Hlearn.
    cbn [fst snd] in Hp, Hres. destruct rl as [e|[]]; [discriminate|].
    destruct (learn_outcome _ _ _ _ Hlearn) as (_ & Htop & _ & Hmore).
    destruct (Hmore eq_refl) as (score & sa & wa & Hscore & _ & _ & Htrend & Hstrong & Hweak).
    rewrite Hp, Htop, Ht0.
    split; [apply cap_last_of|]. split; [apply cap_length|].
    split; [exists score; split; [exact Hscore|]; rewrite Htrend, Hq0; apply cap_last_of|].
    split; [rewrite Htrend; apply cap_length|].
    split; [rewrite Hstrong; apply cap_length|].
    split; [rewrite Hweak; apply cap_length|].
    intros Hnd. destruct (learn_areas _ _ _ Hlearn Hnd) as [Hs Hw].
    rewrite Hs, Hw, Hq0. split; apply cap_last_of.
  - cbn [snd] in Hp. rewrite Hp, Ht0.
    split; [apply cap_last_of|]. split; [apply cap_length|]. exact Hq0.
Qed.

(** Whatever a turn meets, also when it raises, it leaves at most 10 topics,
    and the trend within its capacity if it was. *)
Lemma topics_and_trend_stay_bounded (user_message : string) (enable_critique : bool)
    (env : turn_env) (w : world) :
  let p := user_profile (self w) in
  let p' := user_profile (self (snd (chat user_message enable_critique env w))) in
  (length (topics_of_interest p') <= 10)%nat /\
  ((length (improvement_trend (quality_metrics p)) <= 20)%nat ->
   (length (improvement_trend (quality_metrics p')) <= 20)%nat).
Proof.
  cbv zeta.
  destruct (chat_outcome user_message enable_critique env w)
    as (g & w1 & _ & _ & Hp & _).
  cbv zeta in Hp. rewrite Hp. clear Hp.
  destruct (analyze_outcome user_message (user_profile (self w))) as (_ & Hq & Htopics).
  set (p0 := add_conversation (analyze_user_message user_message (user_profile (self w)))) in *.
  assert (Hq0 : quality_metrics p0 = quality_metrics (user_profile (self w))) by exact Hq.
  assert (Ht0 : (length (topics_of_interest p0) <= 10)%nat).
  { change (topics_of_interest p0)
      with (topics_of_interest (analyze_user_message user_message (user_profile (self w)))).
    rewrite Htopics. apply cap_length. }
  destruct enable_critique; [|cbn [snd]; rewrite Hq0; split; [exact Ht0|tauto]].
  destruct (_learn_from_critique (critique_of env) p0) as [rl p1] eqn:Hlearn. cbn [snd].
  destruct (learn_outcome _ _ _ _ Hlearn) as (_ & Htop & _ & _).
  rewrite Htop. split; [exact Ht0|]. rewrite <- Hq0. clear Hq0 Hq Htopics Ht0 Htop.
  revert Hlearn. generalize p0. clear p0. intros p0.
  destruct (critique_of env) as [| | | | |items]; try (intros [= _ <-]; tauto).
  unfold _learn_from_critique, dict_get.
  unfold Run.bind at 1, Run.ret at 1. unfold Run.bind at 1, Run.get at 1.
  unfold Run.bind at 1, numeric at 1.
  destruct (Json.as_number (default (JNum 7) (Json.get "overall_score" items))) as [score|];
    [|intros [= _ <-]; tauto].
  unfold Run.ret at 1. unfold Run.bind at 1.
  destruct (conversation_count p0 =? 0)%Z; [intros [= _ <-]; tauto|].
  unfold Run.ret at 1. unfold Run.bind at 1, Run.modify at 1.
  unfold Run.bind at 1, Run.modify at 1. unfold Run.bind at 1, Run.modify at 1.
  unfold Run.bind at 1, Run.ret at 1.
  destruct (default (JObj []) (Json.get "scores" items)) as [| | | | |scores];
    try (unfold Run.bind at 1, Run.raise; intros [= _ <-] _; simpl; apply cap_length).
  unfold Run.bind at 1, Run.ret at 1. unfold Run.bind at 1.
  match goal with |- context [Run.for_each scores note_area ?q] =>
    pose proof (for_each_note_area_grows scores q) as Hgrow;
    destruct (Run.for_each scores note_area q) as [[e|[]] p2]
  end; simpl in Hgrow; destruct Hgrow as (_ & _ & _ & _ & G5 & _).
  - intros [= _ <-] _. rewrite G5. apply cap_length.
  - unfold Run.bind, Run.modify. intros [= _ <-] _. simpl. rewrite G5. apply cap_length.
Qed.

Lemma run_turns_cons (t : turn) (turns : list turn) (w : world) :
  run_turns (t :: turns) w =
  match chat (fst (fst t)) (snd (fst t)) (snd t) w with
  | (inr r, w1) =>
      match run_turns turns w1 with
      | (inr rs, w2) => (inr (r :: rs), w2)
      | (inl e, w2) => (inl e, w2)
      end
  | (inl e, w1) => (inl e, w1)
  end.
Proof. destruct t as [[m f] env]. reflexivity. Qed.

(** Over turns that all return, a profile within capacity stays so. *)
Lemma returning_turns_keep_capacity
    (turns : list turn) (w : world) (rs : list (string * metadata)) (w' : world) :
  within_capacity (user_profile (self w)) ->
  run_turns turns w = (inr rs, w') ->
  within_capacity (user_profile (self w')).
Proof.
  revert w rs. induction turns as [|[[m f] env] turns IH]; intros w rs Hcap Hrun.
  - injection Hrun as _ <-. exact Hcap.
  - rewrite run_turns_cons in Hrun. cbn [fst snd] in Hrun.
    destruct (chat m f env w) as [[e|r] w1] eqn:Hchat; [discriminate|].
    destruct (run_turns turns w1) as [[e|rs'] w2] eqn:Hrest; [discriminate|].
    injection Hrun as _ <-.
    apply (IH w1 rs'); [|exact Hrest].
    pose proof (returning_turn_keeps_capacity _ _ _ _ _ _ Hchat) as Hturn.
    cbv zeta in Hturn. destruct Hcap as (_ & Htr & Hs & Hw).
    unfold within_capacity. destruct f.
    + destruct Hturn as (_ & Ht' & _ & Htr' & Hs' & Hw' & _). auto.
    + destruct Hturn as (_ & Ht' & ->). auto.
Qed.

(** ** The running mean *)

(** A critiqued turn that returns folds the overall score of its critique
    into the mean, at the count of the turn. *)
Lemma chat_updates_mean (user_message : string) (env : turn_env)
    (w : world) (r : string * metadata) (w' : world) :
  chat user_message true env w = (inr r, w') ->
  exists score,
    overall_score (md_critique (snd r)) = Some score /\
    let n := (conversation_count (user_profile (self w)) + 1)%Z in
    n <> 0%Z /\
    conversation_count (user_profile (self w')) = n /\
    avg_response_score (quality_metrics (user_profile (self w'))) =
      ((avg_response_score (quality_metrics (user_profile (self w))) * inject_Z (n - 1) + score)
       / inject_Z n)%Q.
Proof.
  intros Hchat.
  destruct (chat_outcome user_message true env w) as (g & w1 & _ & _ & Hp & _ & _ & Hres).
  rewrite Hchat in Hp, Hres. cbn [fst snd] in Hp, Hres. cbv zeta in Hp, Hres.
  destruct (analyze_outcome user_message (user_profile (self w))) as (Hc & Hq & _).
  set (p0 := add_conversation (analyze_user_message user_message (user_profile (self w)))) in *.
  assert (Hc0 : conversation_count p0 = (conversation_count (user_profile (self w)) + 1)%Z)
    by (unfold p0; simpl; rewrite Hc; reflexivity).
  assert (Hq0 : quality_metrics p0 = quality_metrics (user_profile (self w))) by exact Hq.
  destruct (_learn_from_critique (critique_of env) p0) as [rl p1] eqn:Hlearn.
  cbn [fst snd] in Hp, Hres. destruct rl as [e|[]]; [discriminate|].
  injection Hres as ->. cbn [snd md_critique].
  destruct (learn_outcome _ _ _ _ Hlearn) as (_ & _ & Hcount & Hmore).
  destruct (Hmore eq_refl) as (score & sa & wa & Hscore & Hnz & Havg & _).
  exists score. split; [exact Hscore|]. cbv zeta. rewrite Hp, Hcount, Havg, Hc0, Hq0 in *.
  repeat split. exact Hnz.
Qed.

Lemma mean_step (avg score : Q) (k : Z) :
  (k + 1)%Z <> 0%Z ->
  ((avg * inject_Z (k + 1 - 1) + score) / inject_Z (k + 1) * inject_Z (k + 1)
   == avg * inject_Z k + score)%Q.
Proof.
  intros Hk. replace (k + 1 - 1)%Z with k by lia.
  field. intros H. apply Hk.
  unfold Qeq in H. simpl in H. lia.
Qed.

(** Over turns that all run the critique, the mean times the count grows by
    the overall scores of the critiques. *)
Lemma mean_invariant (turns : list turn) :
  forall (w : world) (rs : list (string * metadata)) (w' : world),
  Forall (fun t : turn => snd (fst t) = true) turns ->
  (0 <= conversation_count (user_profile (self w)))%Z ->
  run_turns turns w = (inr rs, w') ->
  exists scores,
    Forall2 (fun r score => overall_score (md_critique (snd r)) = Some score) rs scores /\
    conversation_count (user_profile (self w')) =
      (conversation_count (user_profile (self w)) + Z.of_nat (length scores))%Z /\
    (avg_response_score (quality_metrics (user_profile (self w')))
       * inject_Z (conversation_count (user_profile (self w')))
     == avg_response_score (quality_metrics (user_profile (self w)))
          * inject_Z (conversation_count (user_profile (self w)))
        + fold_right Qplus 0 scores)%Q.
Proof.
  induction turns as [|[[m f] env] turns IH]; intros w rs w' Hall Hk Hrun.
  - injection Hrun as <- <-. exists []. split; [constructor|]. split; [simpl; lia|].
    simpl. ring.
  - rewrite run_turns_cons in Hrun. cbn [fst snd] in Hrun.
    inversion Hall as [|? ? Hf Hall']; subst. cbn [fst snd] in Hf. subst f.
    destruct (chat m true env w) as [[e|r] w1] eqn:Hchat; [discriminate|].
    destruct (run_turns turns w1) as [[e|rs'] w2] eqn:Hrest; [discriminate|].
    injection Hrun as <- <-.
    destruct (chat_updates_mean _ _ _ _ _ Hchat) as (score & Hscore & Hn & Hc1 & Havg1).
    cbv zeta in Hn, Hc1, Havg1.
    destruct (IH w1 rs' w2 Hall' ltac:(lia) Hrest) as (scores & Hrs & Hc2 & Hmean).
    exists (score :: scores). split; [constructor; assumption|].
    split; [rewrite Hc2, Hc1; simpl length; lia|].
    rewrite Hmean, Havg1, Hc1, mean_step by exact Hn. simpl. ring.
Qed.

(** From a fresh profile, over turns that all run the critique and return,
    the mean is the arithmetic mean of the overall scores: in the exact
    arithmetic of the embedding, that is, up to the rounding of the
    program's [float]. *)
Lemma mean_when_every_turn_is_critiqued
    (turns : list turn) (w : world) (rs : list (string * metadata)) (w' : world) :
  Forall (fun t : turn => snd (fst t) = true) turns ->
  conversation_count (user_profile (self w)) = 0%Z ->
  turns <> [] ->
  run_turns turns w = (inr rs, w') ->
  exists scores,
    Forall2 (fun r score => overall_score (md_critique (snd r)) = Some score) rs scores /\
    (avg_response_score (quality_metrics (user_profile (self w'))) == mean scores)%Q.
Proof.
  intros Hall Hzero Hne Hrun.
  destruct (mean_invariant turns w rs w' Hall ltac:(lia) Hrun) as (scores & Hrs & Hc & Hmean).
  exists scores. split; [exact Hrs|].
  rewrite Hzero in Hc, Hmean. rewrite Hc in Hmean. simpl in Hmean.
  assert (Hlen : length scores <> 0%nat).
  { destruct turns as [|[[m f] env] turns]; [congruence|].
    rewrite run_turns_cons in Hrun.
    destruct (chat _ _ _ w) as [[e|r] w1]; [discriminate|].
    destruct (run_turns turns w1) as [[e|rs'] w2]; [discriminate|].
    injection Hrun as <- _. inversion Hrs. simpl. lia. }
  assert (Hnz : ~ (inject_Z (Z.of_nat (length scores)) == 0)%Q)
    by (unfold Qeq; simpl; lia).
  unfold mean.
  transitivity (avg_response_score (quality_metrics (user_profile (self w')))
                * inject_Z (Z.of_nat (length scores)) / inject_Z (Z.of_nat (length scores)))%Q.
  { symmetry. apply Qdiv_mult_l. exact Hnz. }
  rewrite Hmean. field. exact Hnz.
Qed.
(** ** Turns that return *)

(** A turn returns its response when the critique is off, or when the
    critique it gets has the expected types; the count and the overall
    score are taken within the range of a [float], beyond which the
    program raises [OverflowError]. *)
Lemma chat_returns (user_message : string) (enable_critique : bool) (env : turn_env) (w : world) :
  countable (user_profile (self w)) 1 ->
  enable_critique = false \/ well_typed_critique (critique_of env) ->
  exists md, fst (chat user_message enable_critique env w) = inr (response_text env, md).
Proof.
  intros [Hcount _] Hok.
  destruct (chat_outcome user_message enable_critique env w)
    as (g & w1 & _ & _ & _ & _ & _ & Hres).
  cbv zeta in Hres. rewrite Hres. clear Hres.
  destruct enable_critique.
  - destruct Hok as [|Hwt]; [discriminate|].
    rewrite learn_returns; [eexists; reflexivity|exact Hwt|].
    destruct (analyze_outcome user_message (user_profile (self w))) as (Hc & _).
    simpl. rewrite Hc. lia.
  - eexists. reflexivity.
Qed.

(** No turn writes the success rate kept in the routing statistics. *)
Lemma chat_never_writes_success_rate
    (user_message : string) (enable_critique : bool) (env : turn_env) (w : world) :
  gemini_success_rate (routing_stats (self (snd (chat user_message enable_critique env w)))) =
  gemini_success_rate (routing_stats (self w)).
Proof.
  destruct (chat_outcome user_message enable_critique env w)
    as (g & w1 & _ & _ & _ & Hr & _). exact Hr.
Qed.

(** The only exception that leaves [chat] is one raised by
    [_learn_from_critique]. *)
Lemma chat_raises_only_from_learning
    (user_message : string) (enable_critique : bool) (env : turn_env) (w : world) (e : exn) :
  fst (chat user_message enable_critique env w) = inl e ->
  enable_critique = true /\
  fst (_learn_from_critique (critique_of env)
         (add_conversation (analyze_user_message user_message (user_profile (self w)))))
  = inl e.
Proof.
  intros Hraise.
  destruct (chat_outcome user_message enable_critique env w)
    as (g & w1 & _ & _ & _ & _ & _ & Hres).
  cbv zeta in Hres. rewrite Hraise in Hres.
  destruct enable_critique; [|discriminate].
  split; [reflexivity|].
  destruct (fst (_learn_from_critique _ _)) as [e'|[]]; [congruence|discriminate].
Qed.

(** A returning turn counts one more conversation. *)
Lemma chat_counts_turn (user_message : string) (enable_critique : bool) (env : turn_env)
    (w : world) :
  conversation_count (user_profile (self (snd (chat user_message enable_critique env w)))) =
  (conversation_count (user_profile (self w)) + 1)%Z.
Proof.
  destruct (chat_outcome user_message enable_critique env w)
    as (g & w1 & _ & _ & Hp & _).
  cbv zeta in Hp. rewrite Hp.
  destruct (analyze_outcome user_message (user_profile (self w))) as (Hc & _).
  destruct enable_critique.
  - destruct (_learn_from_critique _ _) as [r p1] eqn:Hlearn.
    destruct (learn_outcome _ _ _ _ Hlearn) as (_ & _ & Hcount & _).
    cbn [snd]. rewrite Hcount. simpl. rewrite Hc. reflexivity.
  - simpl. rewrite Hc. reflexivity.
Qed.

(** A sequence of turns whose critiques have the expected types returns. *)
Lemma run_turns_returns (turns : list turn) (w : world) :
  Forall turn_well_typed turns ->
  countable (user_profile (self w)) (length turns) ->
  exists rs w', run_turns turns w = (inr rs, w').
Proof.
  intros Hall. revert w.
  induction Hall as [|[[m f] env] turns Ht _ IH]; intros w [Hcount Hmax].
  - exists [], w. reflexivity.
  - rewrite run_turns_cons. cbn [fst snd]. cbn [length] in Hmax.
    destruct (chat_returns m f env w) as [md Hret];
      [split; [exact Hcount|lia]|exact Ht|].
    pose proof (chat_counts_turn m f env w) as Hc.
    destruct (chat m f env w) as [r w1]. cbn [fst snd] in Hret, Hc. subst r.
    destruct (IH w1) as (rs & w' & Hrun); [split; lia|]. rewrite Hrun. eauto.
Qed.

(** ** The specialist adapter *)

(** C5, as the code has it. [consult] always returns.  When the specialist
    is unavailable it answers [success = false] and changes neither counter;
    otherwise it counts one consultation, succeeds exactly when the
    underlying call returns, and counts a success exactly then. *)
Theorem consult_counts_calls_that_reach_the_specialist
    (question context : string) (reply : exn + string) (g : GeminiSpecialist.t) :
  exists r g',
    GeminiSpecialist.consult question context reply g = (inr r, g') /\
    if GeminiSpecialist.available g && present (GeminiSpecialist.model g) then
      GeminiSpecialist.consultations g' = (GeminiSpecialist.consultations g + 1)%Z /\
      GeminiSpecialist.success r = replied reply /\
      GeminiSpecialist.successes g' =
        (GeminiSpecialist.successes g + if replied reply then 1 else 0)%Z
    else
      GeminiSpecialist.success r = false /\
      GeminiSpecialist.consultations g' = GeminiSpecialist.consultations g /\
      GeminiSpecialist.successes g' = GeminiSpecialist.successes g.
Proof.
  unfold GeminiSpecialist.consult, Run.bind, Run.get, Run.modify, Run.try_except,
    Run.of_sum, Run.ret, Run.raise.
  destruct (GeminiSpecialist.available g), (GeminiSpecialist.model g), reply;
    simpl; do 2 eexists; (split; [reflexivity|]); simpl; repeat split; lia.
Qed.
(** ** Memory *)

Lemma from_saved_to_saved (stamp : string) (msg : message) :
  conversational msg -> from_saved (to_saved stamp msg) = msg.
Proof. destruct msg; simpl; intros H; try contradiction; reflexivity. Qed.

Lemma reload_saved (stamp : string) (l : list message) :
  Forall conversational l -> map (fun msg => from_saved (to_saved stamp msg)) l = l.
Proof.
  induction 1 as [|msg l Hmsg _ IH]; [reflexivity|].
  simpl. rewrite from_saved_to_saved by exact Hmsg. f_equal. exact IH.
Qed.

Lemma from_saved_conversational (msg_data : saved_message) :
  conversational (from_saved msg_data).
Proof. unfold from_saved. destruct (String.eqb _ _); exact I. Qed.

(** The loop of [load_memory] appends the rebuilt messages. *)
Lemma reload_history (body : saved_message -> Run.M world unit)
    (saved : list saved_message) (w : world) :
  (forall msg_data w0, body msg_data w0 = (inr tt, add_message (from_saved msg_data) w0)) ->
  exists w',
    Run.for_each saved body w = (inr tt, w') /\
    chat_history (self w') = chat_history (self w) ++ map from_saved saved /\
    user_profile (self w') = user_profile (self w) /\
    learned_patterns (self w') = learned_patterns (self w) /\
    routing_stats (self w') = routing_stats (self w) /\
    save_file (self w') = save_file (self w).
Proof.
  intros Hbody. revert w. induction saved as [|msg_data saved IH]; intros w.
  - exists w. rewrite app_nil_r. repeat split.
  - rewrite for_each_cons, Hbody.
    destruct (IH (add_message (from_saved msg_data) w))
      as (w' & Hrun & Hh & Hp & Hl & Hr & Hf).
    exists w'. split; [exact Hrun|]. rewrite Hh, Hp, Hl, Hr, Hf. simpl.
    rewrite <- app_assoc. repeat split.
Qed.

(** What [load_memory] makes of the file of the orchestrator. *)
Lemma load_memory_outcome (w : world) :
  let a := self (snd (load_memory w)) in
  save_file a = save_file (self w) /\
  match files w !! save_file (self w) with
  | Some (Blob data) =>
      user_profile a = sd_user_profile data /\
      learned_patterns a = sd_learned_patterns data /\
      routing_stats a = sd_routing_stats data /\
      chat_history a = map from_saved (sd_chat_history data)
  | _ => a = self w
  end.
Proof.
  cbv zeta. unfold load_memory, Run.try_except, Run.bind, Run.get, Run.modify, Run.raise, Run.ret.
  cbv beta iota.
  destruct (files w !! save_file (self w)) as [[data|]|]; [|split; reflexivity|split; reflexivity].
  match goal with |- context [Run.for_each _ ?body ?w0] =>
    destruct (reload_history body (sd_chat_history data) w0)
      as (w' & Hrun & Hh & Hp & Hl & Hr & Hf)
  end.
  { intros msg_data w0. unfold from_saved. destruct (String.eqb _ _); reflexivity. }
  rewrite Hrun. cbn [snd]. rewrite Hh, Hp, Hl, Hr, Hf. simpl. repeat split.
Qed.

(** Saving an orchestrator and loading the file into another of the same
    user hands over the profile, the patterns, the statistics and the last
    50 messages. *)
Lemma save_then_load (a b : MavkusAI) (fs : gmap string file) (env : turn_env)
    (log log' : list call) :
  disk env = WriteOk ->
  save_file b = save_file a ->
  Forall conversational (chat_history a) ->
  let saved := files (snd (save_memory env {| self := a; files := fs; calls := log |})) in
  let b' := self (snd (load_memory {| self := b; files := saved; calls := log' |})) in
  user_profile b' = user_profile a /\
  learned_patterns b' = learned_patterns a /\
  routing_stats b' = routing_stats a /\
  chat_history b' = Py.last_n 50 (chat_history a).
Proof.
  intros Hdisk Hfile Hconv. cbv zeta.
  destruct (save_memory_total env {| self := a; files := fs; calls := log |})
    as (w1 & Hsave & _ & _ & Hfiles).
  rewrite Hsave. cbn [snd]. rewrite Hdisk in Hfiles. cbn [self files] in Hfiles.
  rewrite Hfiles.
  match goal with |- context [load_memory ?w0] =>
    pose proof (load_memory_outcome w0) as Hload
  end.
  cbv zeta in Hload. cbn [files self] in Hload.
  rewrite Hfile, lookup_insert_eq in Hload.
  destruct Hload as (_ & Hp & Hl & Hr & Hh). cbn in Hp, Hl, Hr, Hh.
  repeat split; try assumption.
  rewrite Hh, map_map.
  assert (Hsub : Forall conversational (Py.last_n 50 (chat_history a))).
  { rewrite List.Forall_forall in *. intros x Hx. apply Hconv.
    eapply last_n_In; eassumption. }
  apply reload_saved. exact Hsub.
Qed.

(** An orchestrator just constructed holds only messages of the
    conversation, and its memory file is the one of its user. *)
Lemma init_outcome (uid : string) (groq_key gemini_key : option string)
    (penv : process_env) (fs : gmap string file) (a : MavkusAI) :
  init uid groq_key gemini_key penv fs = inr a ->
  save_file a = memory_path uid /\ Forall conversational (chat_history a).
Proof.
  unfold init. destruct (negb _); [discriminate|].
  destruct (groq_client penv) as [e|[]]; [discriminate|].
  intros [= <-].
  match goal with |- context [load_memory ?w0] =>
    pose proof (load_memory_outcome w0) as Hload
  end.
  cbv zeta in Hload. destruct Hload as [Hfile Hload]. split; [exact Hfile|].
  cbn [self files save_file blank] in Hload.
  destruct (fs !! memory_path uid) as [[data|]|].
  - destruct Hload as (_ & _ & _ & ->). apply List.Forall_forall. intros msg Hin.
    apply in_map_iff in Hin. destruct Hin as (msg_data & <- & _).
    apply from_saved_conversational.
  - rewrite Hload. constructor.
  - rewrite Hload. constructor.
Qed.

(** A turn keeps the history made of messages of the conversation. *)
Lemma chat_keeps_conversational
    (user_message : string) (enable_critique : bool) (env : turn_env) (w : world) :
  Forall conversational (chat_history (self w)) ->
  Forall conversational
    (chat_history (self (snd (chat user_message enable_critique env w)))).
Proof.
  intros Hconv.
  destruct (chat_outcome user_message enable_critique env w) as (g & w1 & _ & Hh & _).
  rewrite Hh. apply Forall_app. split; [exact Hconv|]. repeat constructor.
Qed.

(** [load_memory] returns, whatever the file holds. *)
Lemma load_memory_returns (w : world) : fst (load_memory w) = inr tt.
Proof.
  unfold load_memory, Run.try_except, Run.bind, Run.get, Run.modify, Run.raise, Run.ret.
  cbv beta iota.
  destruct (files w !! save_file (self w)) as [[data|]|]; [|reflexivity|reflexivity].
  match goal with |- context [Run.for_each _ ?body ?w0] =>
    destruct (reload_history body (sd_chat_history data) w0) as (w' & Hrun & _)
  end.
  { intros msg_data w0. unfold from_saved. destruct (String.eqb _ _); reflexivity. }
  rewrite Hrun. reflexivity.
Qed.

(** C8. Saving the state an orchestrator of a user holds, the write
    succeeding, and then loading the file into an orchestrator of the same
    user, whatever that one held and whatever the file held before, yields
    the profile, the routing statistics and the learned patterns that were
    saved, together with the chat messages that were saved: the last 50 of
    the history, which is the whole history when it has no more than 50
    messages (as has every orchestrator constructed from a file that
    [save_memory] wrote).  The time stamps of the file are no part of the
    messages.  Both operations return, and the save leaves the orchestrator
    as it is. *)
Theorem save_then_load_round_trip
    (a b : MavkusAI) (fs : gmap string file) (env : turn_env) (log log' : list call) :
  disk env = WriteOk ->
  save_file b = save_file a ->
  Forall conversational (chat_history a) ->
  let saving := save_memory env {| self := a; files := fs; calls := log |} in
  let loading := load_memory {| self := b; files := files (snd saving); calls := log' |} in
  let b' := self (snd loading) in
  fst saving = inr tt /\
  self (snd saving) = a /\
  fst loading = inr tt /\
  user_profile b' = user_profile a /\
  routing_stats b' = routing_stats a /\
  learned_patterns b' = learned_patterns a /\
  last_of 50 (chat_history a) (chat_history b') /\
  ((length (chat_history a) <= 50)%nat -> chat_history b' = chat_history a).
Proof.
  clear lower json_loads.
  intros Hdisk Hfile Hconv. cbv zeta.
  destruct (save_then_load a b fs env log log' Hdisk Hfile Hconv) as (Hp & Hl & Hr & Hh).
  destruct (save_memory_total env {| self := a; files := fs; calls := log |})
    as (w1 & Hsave & Hself & _).
  rewrite Hsave in *. cbn [fst snd] in *.
  split; [reflexivity|]. split; [exact Hself|].
  split; [apply load_memory_returns|].
  rewrite Hp, Hr, Hl, Hh.
  repeat split; [apply last_n_last_of|apply last_n_all].
Qed.
(** ** The instance cache and save-keys *)

(** The endpoint never returns its answer and never touches the cache:
    after a successful write [cache_clear] is looked up on a plain function,
    and the handler turns every exception into a 500. *)
Lemma save_keys_never_clears_cache (request : SaveAPIKeysRequest) (store_ok : bool) (s : server) :
  (exists detail, fst (save_api_keys request store_ok s) = inl (HTTPException "500" detail))
  /\ instances (snd (save_api_keys request store_ok s)) = instances s.
Proof.
  unfold save_api_keys, firebase_save_api_keys, cache_clear, get_ai_instance_object,
    Run.try_except, Run.bind, Run.get, Run.modify, Run.raise, Run.ret.
  destruct store_ok; simpl; [|eauto].
  destruct (users s !! req_user_id request); simpl; eauto.
Qed.

End Mavkus.

(** * Worked examples

    The engine run with [ascii_lower] and [json_loads_lite]. *)

(** ** Routing *)

Example route_three_keywords :
  should_route_to_gemini Py.ascii_lower
    "Qual e la differenza tra atomo e molecola in chimica?" = true.
Proof. reflexivity. Qed.

Example route_two_keywords :
  should_route_to_gemini Py.ascii_lower "L'energia di un atomo" = true.
Proof. reflexivity. Qed.

Example route_strong_signal_alone :
  should_route_to_gemini Py.ascii_lower "Studio BIOLOGIA" = true.
Proof. reflexivity. Qed.

Lemma route_single_keyword_witness :
  Py.occurs "atomo" (Py.ascii_lower "Parlami di un Atomo") /\
  should_route_to_gemini Py.ascii_lower "Parlami di un Atomo" = false.
Proof.
  assert (Hocc : Py.occurs "atomo" (Py.ascii_lower "Parlami di un Atomo"))
    by (apply str_in_occurs; reflexivity).
  split; [exact Hocc|].
  apply (proj2 (route_iff_two_keywords_or_strong_signal Py.ascii_lower "Parlami di un Atomo")
           "atomo").
  - simpl. tauto.
  - simpl. intuition discriminate.
  - exact Hocc.
  - intros kw' Hin Hkw'. apply str_in_occurs in Hkw'. simpl in Hin.
    repeat (destruct Hin as [<-|Hin];
            [first [reflexivity | vm_compute in Hkw'; discriminate]|]).
    contradiction.
Defined.

(** ** The specialist adapter *)

(** C5, as stated, fails: a call to an unavailable specialist is not
    counted as a consultation. *)
Lemma unavailable_consult_is_not_counted :
  let g := GeminiSpecialist.init true true None in
  let g' := snd (GeminiSpecialist.consult "Che cos'e la fisica?" "" (inr "") g) in
  GeminiSpecialist.available g = false /\
  GeminiSpecialist.consultations g' = 0%Z /\
  GeminiSpecialist.consultations g' <> (GeminiSpecialist.consultations g + 1)%Z.
Proof. cbv zeta. repeat split. discriminate. Qed.

(** ** Critique *)

Lemma unavailable_critique_witness :
  critique_unavailable Json.json_loads_lite (sample_env (inr "Direi 8 su 10.")) /\
  fst (_critique_response Json.json_loads_lite "Ciao" "Ecco la risposta."
         (sample_env (inr "Direi 8 su 10.")) sample_world) = inr fallback_critique.
Proof.
  assert (H : critique_unavailable Json.json_loads_lite (sample_env (inr "Direi 8 su 10.")))
    by reflexivity.
  split; [exact H|].
  apply (unavailable_critique_falls_back_to_seven Py.ascii_lower Json.json_loads_lite
           "Ciao" "Ecco la risposta." _ sample_world H).
  simpl. lia.
Defined.

(** C2, a defect of the code. The critic answers with valid JSON in which the
    scores come as a list: decoding succeeds, so no fallback is taken, and
    [_learn_from_critique], called outside any handler, raises; the
    exception leaves [chat] and the caller gets no response. *)
Theorem ill_typed_critique_aborts_turn :
  fst (chat Py.ascii_lower Json.json_loads_lite "Ciao" true
         (sample_env listed_scores) sample_world)
  = inl (AttributeError "object has no attribute 'items'").
Proof. reflexivity. Qed.

(** C3, a defect of the code. The mean divides by the number of turns, not
    by the number of critiques: after a turn without critique and a turn
    whose critique scores 8, the stored mean is 4, while the mean of the
    scores received is 8. *)
Theorem skipped_critique_dilutes_mean :
  let run := run_turns Py.ascii_lower Json.json_loads_lite
               [("Ciao", false, sample_env (scored "8"));
                ("Ancora", true, sample_env (scored "8"))] sample_world in
  map (fun r => md_critique (snd r)) (match fst run with inr rs => rs | inl _ => [] end)
    = [JObj []; JObj [("overall_score", JNum 8); ("scores", JObj [])]]
  /\ (avg_response_score (quality_metrics (user_profile (self (snd run)))) == 4)%Q
  /\ (mean [8%Q] == 8)%Q
  /\ ~ (avg_response_score (quality_metrics (user_profile (self (snd run)))) == mean [8%Q])%Q.
Proof. cbv zeta. repeat split; vm_compute; congruence. Qed.

Example mean_of_8_6_10 :
  (avg_response_score (quality_metrics (user_profile (self (snd
     (run_turns Py.ascii_lower Json.json_loads_lite
        [("a", true, sample_env (scored "8"));
         ("b", true, sample_env (scored "6"));
         ("c", true, sample_env (scored "10"))] sample_world))))) == 8)%Q.
Proof. reflexivity. Qed.

(** C9, a defect of the code. The success rate kept in the routing
    statistics is never written: after a turn in which the specialist was
    consulted and succeeded it is still 0, while the adapter reports 100. *)
Theorem success_rate_stays_zero :
  let a := self (snd (chat Py.ascii_lower Json.json_loads_lite "Spiegami la fisica" true
                        (sample_env (scored "8")) sample_world)) in
  routed_to_gemini (routing_stats a) = 1%Z /\
  GeminiSpecialist.successes (gemini a) = 1%Z /\
  GeminiSpecialist.success_rate (GeminiSpecialist.get_stats (gemini a)) = 100%Q /\
  gemini_success_rate (routing_stats a) = 0%Q.
Proof. cbv zeta. repeat split. Qed.

(** ** Bounded lists *)

(** A critique of six criteria that all score 9: the turn returns, and of
    the six new strong areas the first is dropped. *)
Example six_strong_criteria_drop_the_first :
  let run := chat Py.ascii_lower Json.json_loads_lite "Ciao" true
               (sample_env (criteria six_nines)) sample_world in
  (exists md, fst run = inr ("Ecco la risposta.", md)) /\
  strong_areas (quality_metrics (user_profile (self (snd run)))) =
    ["chiarezza"; "completezza"; "accuratezza"; "utilita"; "originalita"].
Proof. cbv zeta. split; [eexists|]; vm_compute; reflexivity. Qed.

(** C6, a defect of the code. The critic answers with six criteria scoring 9
    and a seventh scored in words: [_learn_from_critique] appends the six
    to the strong areas, raises on the seventh, and so never reaches the
    lines that cut the lists to 5.  The orchestrator is left with 6 strong
    areas; four later turns, which return, keep them, and the save of the
    fifth turn writes them to the memory file. *)
Theorem aborted_learning_leaves_six_strong_areas :
  let first := chat Py.ascii_lower Json.json_loads_lite "Ciao" true
                 (sample_env (criteria six_nines_and_a_word)) sample_world in
  let later := run_turns Py.ascii_lower Json.json_loads_lite quiet_turns (snd first) in
  (exists msg, fst first = inl (TypeError msg)) /\
  strong_areas (quality_metrics (user_profile (self (snd first)))) =
    ["rilevanza"; "chiarezza"; "completezza"; "accuratezza"; "utilita"; "originalita"] /\
  (exists rs, fst later = inr rs /\ length rs = 4%nat) /\
  length (strong_areas (quality_metrics (user_profile (self (snd later))))) = 6%nat /\
  ~ within_capacity (user_profile (self (snd later))) /\
  match files (snd later) !! memory_path "u1" with
  | Some (Blob data) =>
      length (strong_areas (quality_metrics (sd_user_profile data))) = 6%nat
  | _ => False
  end.
Proof.
  cbv zeta. split; [eexists; vm_compute; reflexivity|]. split; [vm_compute; reflexivity|].
  split; [eexists; split; vm_compute; reflexivity|].
  split; [vm_compute; reflexivity|].
  split; [|vm_compute; reflexivity].
  intros (_ & _ & H & _). vm_compute in H. lia.
Qed.

(** ** Memory *)

(** In a history of 52 messages, the turn sends the generalist the system
    prompt and ten messages, from the 44th on to the new one, and a save
    writes 50 messages, from the third on. *)
Example long_history_sends_ten_and_saves_fifty :
  let w := {| self := talkative; files := ∅; calls := [] |} in
  let env := sample_env (scored "8") in
  match calls (snd (chat Py.ascii_lower Json.json_loads_lite "Ultima" false env w)) with
  | [GroqCall (SystemPrompt _ _ _ :: sent)] =>
      sent = [AIMessage "Risposta V"; HumanMessage "Domanda W"; AIMessage "Risposta W";
              HumanMessage "Domanda X"; AIMessage "Risposta X"; HumanMessage "Domanda Y";
              AIMessage "Risposta Y"; HumanMessage "Domanda Z"; AIMessage "Risposta Z";
              HumanMessage "Ultima"]
  | _ => False
  end /\
  match files (snd (save_memory env w)) !! memory_path "u1" with
  | Some (Blob data) =>
      length (sd_chat_history data) = 50%nat /\
      option_map saved_content (head (sd_chat_history data)) = Some "Domanda B"
  | _ => False
  end.
Proof. cbv zeta. split; vm_compute; repeat split. Qed.

Lemma round_trip_witness :
  let env := sample_env (scored "8") in
  let a := self (snd (chat Py.ascii_lower Json.json_loads_lite
                        "Ciao, mi spieghi la fisica?" true env sample_world)) in
  let b := blank "u1" "gsk-2" (GeminiSpecialist.init true true None) in
  let saving := save_memory env {| self := a; files := stale_files; calls := [] |} in
  let b' := self (snd (load_memory {| self := b; files := files (snd saving); calls := [] |})) in
  chat_history a = [HumanMessage "Ciao, mi spieghi la fisica?"; AIMessage "Ecco la risposta."] /\
  topics_of_interest (user_profile a) = ["fisica"] /\
  disk env = WriteOk /\
  save_file b = save_file a /\
  Forall conversational (chat_history a) /\
  user_profile b' = user_profile a /\
  routing_stats b' = routing_stats a /\
  learned_patterns b' = learned_patterns a /\
  chat_history b' = chat_history a.
Proof.
  cbv zeta.
  set (env := sample_env (scored "8")).
  set (a := self (snd (chat Py.ascii_lower Json.json_loads_lite
                         "Ciao, mi spieghi la fisica?" true env sample_world))).
  set (b := blank "u1" "gsk-2" (GeminiSpecialist.init true true None)).
  assert (Hh : chat_history a =
               [HumanMessage "Ciao, mi spieghi la fisica?"; AIMessage "Ecco la risposta."])
    by (vm_compute; reflexivity).
  assert (Hdisk : disk env = WriteOk) by reflexivity.
  assert (Hfile : save_file b = save_file a) by (vm_compute; reflexivity).
  assert (Hconv : Forall conversational (chat_history a))
    by (rewrite Hh; repeat constructor).
  split; [exact Hh|]. split; [vm_compute; reflexivity|].
  split; [exact Hdisk|]. split; [exact Hfile|]. split; [exact Hconv|].
  destruct (save_then_load_round_trip a b stale_files env [] [] Hdisk Hfile Hconv)
    as (_ & _ & _ & Hp & Hr & Hl & _ & Hsame).
  split; [exact Hp|]. split; [exact Hr|]. split; [exact Hl|].
  apply Hsame. rewrite Hh. simpl. lia.
Defined.

(** ** The instance cache *)

(** C4, a defect of the code. The store write succeeds, yet the endpoint
    answers 500 and the cached orchestrator survives: the next request of
    the user gets the instance built with the old key. *)
Theorem save_keys_leaves_stale_instance :
  let '(answer, s) := save_api_keys sample_request true sample_server in
  option_map doc_groq (users s !! "u1") = Some (Some (encrypt "gsk-new")) /\
  answer = inl (HTTPException "500" "'function' object has no attribute 'cache_clear'") /\
  instances s = instances sample_server /\
  match fst (_create_ai_instance "u1" true s) with
  | inr ai => api_key (model ai) = "gsk-old"
  | inl _ => False
  end.
Proof. vm_compute. repeat split. Qed.
